(** * Project Alice front end: the API facade and the chat session controller

    A shallow embedding of [frontend/src/contexts/ApiContext.tsx] and
    [alice_frontend/src/contexts/ChatContext.tsx].

    Asynchronous functions become computations in a small monad [M] that
    threads a [World]: the chronological trace of the effects performed so
    far and the React state cells of the chat provider.  Awaiting a remote
    call, or waiting for the user to answer a dialog, asks the environment
    [Env], which answers as a function of everything that happened before.
    A rejected promise or a thrown exception is the result [Throw]. *)

From Stdlib Require Import String List Bool Arith Lia.
Import ListNotations.
Open Scope string_scope.

(** ** Data model *)

(** Modelled from the spec: the declarations of [types/*.ts] are not among the
    sources.  Each record carries the fields the two contexts read or write;
    [_id] is optional in the front end (the code casts it with [as string]). *)

Inductive CollectionName :=
| Agents | Chats | Models | Tasks | Files | Messages | TaskResults.

(** The text a collection name contributes to a template string. *)
Definition collectionName_text (c : CollectionName) : string :=
  match c with
  | Agents => "agents"
  | Chats => "chats"
  | Models => "models"
  | Tasks => "tasks"
  | Files => "files"
  | Messages => "messages"
  | TaskResults => "taskresults"
  end.

Record MessageType := {
  message_id : option string;
  role : string;
  content : string
}.

Record AliceAgent := {
  agent_id : option string;
  agent_name : string
}.

Record AliceTask := {
  task_id : option string;
  task_name : string
}.

Record TaskResponse := {
  taskresponse_id : option string;
  task_outputs : string
}.

Record FileReference := {
  file_id : option string;
  filename : string;
  transcript : option MessageType
}.

Record AliceChat := {
  chat_id : option string;
  chat_messages : list MessageType;
  alice_agent : AliceAgent;
  functions : option (list AliceTask)
}.

(** A value of [CollectionType[T]] for some collection [T]. *)
Inductive Item :=
| IAgent (a : AliceAgent)
| IChat (c : AliceChat)
| ITask (t : AliceTask)
| IFile (f : FileReference)
| IMessage (m : MessageType)
| ITaskResponse (r : TaskResponse)
| IOther (id : option string) (body : string).

Definition item_id (i : Item) : option string :=
  match i with
  | IAgent a => agent_id a
  | IChat c => chat_id c
  | ITask t => task_id t
  | IFile f => file_id f
  | IMessage m => message_id m
  | ITaskResponse r => taskresponse_id r
  | IOther id _ => id
  end.

(** [Partial<CollectionType[T]>]: an object literal with some of the fields. *)
Record ItemData := {
  data_messages : option (list MessageType);
  data_functions : option (list AliceTask);
  data_transcript : option MessageType;
  data_rest : string
}.

Definition no_data : ItemData :=
  {| data_messages := None; data_functions := None;
     data_transcript := None; data_rest := "" |}.

(** What [fetchItem(collection)] may resolve to where the caller tests it
    with [Array.isArray]. *)
Inductive OneOrMany (A : Type) :=
| One (x : A)
| Many (xs : list A).
Arguments One {A} x.
Arguments Many {A} xs.

(** ** Remote calls *)

(** Modelled from the spec: [services/api] is not among the sources.  A call
    is a request the backend answers or fails; the index is the type at which
    the call site uses the answer (its TypeScript cast), with a sum exactly
    where the code tests the answer at run time ([!task], [Array.isArray]). *)

Inductive Fetch : Type -> Type :=
| chats_all : Fetch (list AliceChat)
| chats_by_id (chatId : string) : Fetch AliceChat
| tasks_all : Fetch (OneOrMany AliceTask)
| tasks_by_id (taskId : string) : Fetch (option AliceTask)
| taskresults_all : Fetch (OneOrMany TaskResponse)
| files_by_id (fileId : string) : Fetch FileReference.

Inductive Remote : Type -> Type :=
| apiFetchItem {T} (q : Fetch T) : Remote T
| apiCreateItem (collectionName : CollectionName) (itemData : ItemData) : Remote Item
| apiUpdateItem (collectionName : CollectionName) (itemId : string)
    (itemData : ItemData) : Remote Item
| apiDeleteItem (collectionName : CollectionName) (itemId : string) : Remote unit
| apiExecuteTask (taskId : string) (inputs : string) : Remote TaskResponse
| apiGenerateChatResponse (chatId : string) : Remote bool
| apiSendMessage (chatId : string) (message : MessageType) : Remote AliceChat
| apiPurgeAndReinitializeDatabase : Remote unit
| apiUploadFileContentReference (itemData : string) : Remote FileReference
| apiUpdateFile (file : string) (fileId : option string) : Remote FileReference
| apiRetrieveFile (fileId : string) : Remote string
| apiRequestFileTranscript (fileId : string) (agentId chatId : option string) :
    Remote MessageType
| apiUpdateMessageInChat (chatId : string) (message : MessageType) :
    Remote MessageType.

(** ** Effects *)

Inductive Error :=
| RemoteCallFailure (reason : string).

Inductive Result (A : Type) :=
| Ok (a : A)
| Throw (e : Error).
Arguments Ok {A} a.
Arguments Throw {A} e.

Inductive Severity := success | error | info.

Inductive LogLevel := debug_level | info_level | warn_level | error_level.

(** The call [selectCardItem(elementString, id, item?)] a notification's
    action performs when clicked. *)
Record CardSelection := {
  card_element : string;
  card_id : option string;
  card_item : option Item
}.

Record NotificationAction := {
  label : string;
  onClick : CardSelection
}.

Record DialogOptions := {
  title : string;
  dialog_content : string;
  confirmText : string;
  cancelText : string
}.

Inductive Choice := Confirm | Cancel.

(** The payload of an Event Bus publication. *)
Inductive Payload :=
| PItem (item : Item)
| PIdOnly (itemId : string)
| PNothing.

(** Modelled from the spec: [NotificationContext], [DialogCustomContext],
    [utils/EventEmitter] and [utils/Logger] are not among the sources.  Their
    calls do not fail and are recorded, in order, in the trace. *)
Inductive Event :=
| Await {T : Type} (call : Remote T)
| OpenDialog (options : DialogOptions)
| AddNotification (message : string) (type : Severity)
    (duration : option nat) (action : option NotificationAction)
| Emit (key : string) (payload : Payload)
| Log (level : LogLevel) (message : string).

(** The environment: the backend settles each awaited call and the user
    answers each dialog, both knowing the whole history. *)
Record Env := {
  backend : list Event -> forall T, Remote T -> Result T;
  user : list Event -> DialogOptions -> Choice
}.

(** The state cells of [ChatProvider]. *)
Record ChatState := {
  messages : list MessageType;
  pastChats : list AliceChat;
  currentChatId : option string;
  agents : list AliceAgent;
  isGenerating : bool;
  currentChat : option AliceChat
}.

Record World := {
  trace : list Event;
  chat : ChatState
}.

Definition M (A : Type) : Type := World -> Result A * World.

Definition ret {A} (a : A) : M A := fun w => (Ok a, w).

Definition bind {A B} (m : M A) (k : A -> M B) : M B :=
  fun w =>
    match m w with
    | (Ok a, w') => k a w'
    | (Throw e, w') => (Throw e, w')
    end.

Definition throw {A} (e : Error) : M A := fun w => (Throw e, w).

(** [try { body } catch (error) { handler }] *)
Definition try_catch {A} (body : M A) (handler : Error -> M A) : M A :=
  fun w =>
    match body w with
    | (Ok a, w') => (Ok a, w')
    | (Throw e, w') => handler e w'
    end.

(** [try { body } finally { final }] *)
Definition try_finally {A} (body : M A) (final : M unit) : M A :=
  fun w =>
    let (r, w') := body w in
    match final w' with
    | (Ok _, w'') => (r, w'')
    | (Throw e, w'') => (Throw e, w'')
    end.

Declare Scope monad_scope.
Delimit Scope monad_scope with monad.
Notation "x <- m ;; k" := (bind m (fun x => k))
  (at level 61, m at next level, right associativity) : monad_scope.
Notation "m ;; k" := (bind m (fun _ => k))
  (at level 61, right associativity) : monad_scope.
Open Scope monad_scope.

Definition record (e : Event) : M unit :=
  fun w => (Ok tt, {| trace := trace w ++ [e]; chat := chat w |}).

Definition addNotification (message : string) (type : Severity)
    (duration : option nat) (action : option NotificationAction) : M unit :=
  record (AddNotification message type duration action).

Definition logger (level : LogLevel) (message : string) : M unit :=
  record (Log level message).

Definition get_state : M ChatState := fun w => (Ok (chat w), w).

Definition set_state (f : ChatState -> ChatState) : M unit :=
  fun w => (Ok tt, {| trace := trace w; chat := f (chat w) |}).

(** JavaScript truthiness of a [string | null]. *)
Definition truthy (s : option string) : option string :=
  match s with
  | Some "" => None
  | other => other
  end.

(** ** The API facade ([ApiContext.tsx]) *)

Module ApiContext.
Section Provider.

Variable env : Env.

  (** The table [collectionNameToElementString] of [types/CollectionTypes]
      is not among the sources; the provider is read for any such table. *)
Variable collectionNameToElementString : CollectionName -> string.

  (** [await call]: the call is issued and the caller resumes when the
      backend has settled it. *)
Definition await {T} (call : Remote T) : M T :=
    fun w =>
      (backend env (trace w) T call,
       {| trace := trace w ++ [Await call]; chat := chat w |}).

  (** [openDialog(options)]: exactly one of [onConfirm] and [onCancel] fires,
      once; the computation continues with the handler the user chose. *)
Definition openDialog (options : DialogOptions) : M Choice :=
    fun w =>
      (Ok (user env (trace w) options),
       {| trace := trace w ++ [OpenDialog options]; chat := chat w |}).

Definition emitEvent (eventType : string) (collectionName : CollectionName)
      (item : Payload) : M unit :=
    record (Emit (eventType ++ ":" ++ collectionName_text collectionName) item).

Definition fetchItem {T} (q : Fetch T) : M T := await (apiFetchItem q).

Definition retrieveFile (fileId : string) : M string :=
    await (apiRetrieveFile fileId).

Definition createItem (collectionName : CollectionName) (itemData : ItemData)
      : M Item :=
    try_catch
      (createdItem <- await (apiCreateItem collectionName itemData) ;;
       logger debug_level ("Created " ++ collectionName_text collectionName ++ ":") ;;
       addNotification
         (collectionName_text collectionName ++ " created successfully")
         success (Some 5000)
         (Some {| label := "View";
                  onClick := {| card_element := collectionNameToElementString collectionName;
                                card_id := item_id createdItem;
                                card_item := None |} |}) ;;
       emitEvent "created" collectionName (PItem createdItem) ;;
       ret createdItem)
      (fun err =>
         addNotification ("Error creating " ++ collectionName_text collectionName)
           error None None ;;
         throw err).

Definition updateItem (collectionName : CollectionName) (itemId : string)
      (itemData : ItemData) : M Item :=
    try_catch
      (updatedItem <- await (apiUpdateItem collectionName itemId itemData) ;;
       addNotification
         (collectionName_text collectionName ++ " updated successfully")
         success (Some 5000)
         (Some {| label := "View";
                  onClick := {| card_element := collectionNameToElementString collectionName;
                                card_id := Some itemId;
                                card_item := None |} |}) ;;
       emitEvent "updated" collectionName (PItem updatedItem) ;;
       ret updatedItem)
      (fun err =>
         addNotification ("Error updating " ++ collectionName_text collectionName)
           error None None ;;
         throw err).

Definition deletion_dialog (collectionName : CollectionName) : DialogOptions :=
    {| title := "Confirm Deletion";
       dialog_content := "Are you sure you want to delete this "
                         ++ collectionNameToElementString collectionName ++ "?";
       confirmText := "Delete";
       cancelText := "Cancel" |}.

  (** The promise is settled only by [resolve], from inside the handler the
      user picked. *)
Definition deleteItem (collectionName : CollectionName) (itemId : string)
      : M bool :=
    choice <- openDialog (deletion_dialog collectionName) ;;
    match choice with
    | Confirm =>
        try_catch
          (await (apiDeleteItem collectionName itemId) ;;
           addNotification
             (collectionNameToElementString collectionName ++ " deleted successfully")
             success None None ;;
           emitEvent "deleted" collectionName (PIdOnly itemId) ;;
           ret true)
          (fun err =>
             addNotification ("Error deleting " ++ collectionName_text collectionName)
               error None None ;;
             logger error_level
               ("Error deleting item from " ++ collectionName_text collectionName ++ ":") ;;
             ret false)
    | Cancel =>
        addNotification
          ("Deletion of " ++ collectionName_text collectionName ++ " cancelled")
          info None None ;;
        ret false
    end.

Definition executeTask (taskId : string) (inputs : string) : M TaskResponse :=
    try_catch
      (result <- await (apiExecuteTask taskId inputs) ;;
       addNotification "Task executed successfully" success (Some 5000)
         (Some {| label := "View Result";
                  onClick := {| card_element := "TaskResponse";
                                card_id := taskresponse_id result;
                                card_item := None |} |}) ;;
       emitEvent "created" TaskResults (PItem (ITaskResponse result)) ;;
       ret result)
      (fun err =>
         addNotification "Error executing task" error None None ;;
         throw err).

Definition generateChatResponse (chatId : string) : M bool :=
    try_catch
      (result <- await (apiGenerateChatResponse chatId) ;;
       addNotification "Chat response generated successfully" success None None ;;
       (if result
        then updatedChat <- await (apiFetchItem (chats_by_id chatId)) ;;
             emitEvent "updated" Chats (PItem (IChat updatedChat))
        else ret tt) ;;
       ret result)
      (fun err =>
         addNotification "Error generating chat response" error None None ;;
         throw err).

Definition sendMessage (chatId : string) (message : MessageType) : M AliceChat :=
    try_catch
      (result <- await (apiSendMessage chatId message) ;;
       addNotification "Message sent successfully" success None None ;;
       emitEvent "created" Messages (PItem (IMessage message)) ;;
       emitEvent "updated" Chats (PItem (IChat result)) ;;
       ret result)
      (fun err =>
         addNotification "Error sending message" error None None ;;
         throw err).

Definition uploadFileContentReference (itemData : string) : M FileReference :=
    try_catch
      (result <- await (apiUploadFileContentReference itemData) ;;
       addNotification "File uploaded successfully" success (Some 5000)
         (Some {| label := "View File";
                  onClick := {| card_element := "File";
                                card_id := file_id result;
                                card_item := None |} |}) ;;
       emitEvent "created" Files (PItem (IFile result)) ;;
       ret result)
      (fun err =>
         addNotification "Error uploading file" error None None ;;
         throw err).

Definition updateFile (file : string) (fileId : option string) : M FileReference :=
    try_catch
      (result <- await (apiUpdateFile file fileId) ;;
       addNotification "File updated successfully" success (Some 5000)
         (Some {| label := "View File";
                  onClick := {| card_element := "File";
                                card_id := file_id result;
                                card_item := Some (IFile result) |} |}) ;;
       emitEvent "updated" Files (PItem (IFile result)) ;;
       ret result)
      (fun err =>
         addNotification "Error updating file" error None None ;;
         throw err).

Definition transcript_data (t : MessageType) : ItemData :=
    {| data_messages := None; data_functions := None;
       data_transcript := Some t; data_rest := "" |}.

Definition transcript_dialog : DialogOptions :=
    {| title := "Existing Transcript";
       dialog_content :=
         "This file already has a transcript. Do you want to generate a new one?";
       confirmText := "Generate New";
       cancelText := "Use Existing" |}.

  (** The promise built around the "Existing Transcript" dialog.  It is
      returned from inside the [try] block without being awaited, so its
      rejection does not pass through the enclosing [catch]. *)
Definition existing_transcript_dialog (fileId : string)
      (agentId chatId : option string) (existing : MessageType) : M MessageType :=
    choice <- openDialog transcript_dialog ;;
    match choice with
    | Confirm =>
        try_catch
          (newTranscript <- await (apiRequestFileTranscript fileId agentId chatId) ;;
           updateItem Files fileId (transcript_data newTranscript) ;;
           addNotification "New transcript generated successfully" success None None ;;
           ret newTranscript)
          (fun err =>
             addNotification "Error generating new transcript"
               error None None ;;
             throw err)
    | Cancel =>
        addNotification "Using existing transcript" info None None ;;
        ret existing
    end.

Definition requestFileTranscript (fileId : string)
      (agentId chatId : option string) : M MessageType :=
    promise <-
      try_catch
        (logger info_level ("Requesting transcript for file: " ++ fileId) ;;
         fileData <- await (apiFetchItem (files_by_id fileId)) ;;
         match transcript fileData with
         | Some existing =>
             ret (existing_transcript_dialog fileId agentId chatId existing)
         | None =>
             transcript <- await (apiRequestFileTranscript fileId agentId chatId) ;;
             updateItem Files fileId (transcript_data transcript) ;;
             addNotification "Transcript generated successfully" success None None ;;
             ret (ret transcript)
         end)
        (fun err =>
           addNotification "Error requesting transcript" error None None ;;
           throw err) ;;
    promise.

Definition updateMessageInChat (chatId : string) (message : MessageType)
      : M MessageType :=
    try_catch
      (result <- await (apiUpdateMessageInChat chatId message) ;;
       addNotification "Message updated successfully" success None None ;;
       emitEvent "updated" Messages (PItem (IMessage result)) ;;
       updatedChat <- await (apiFetchItem (chats_by_id chatId)) ;;
       emitEvent "updated" Chats (PItem (IChat updatedChat)) ;;
       ret result)
      (fun err =>
         addNotification "Error updating message" error None None ;;
         throw err).

Definition purgeAndReinitializeDatabase : M unit :=
    try_catch
      (await apiPurgeAndReinitializeDatabase ;;
       addNotification "Database purged and reinitialized successfully"
         success None None ;;
       record (Emit "databasePurged" PNothing))
      (fun err =>
         addNotification "Error purging and reinitializing database"
           error None None ;;
         logger error_level "Error purging and reinitializing database:" ;;
         throw err).

End Provider.
End ApiContext.

(** ** The chat session controller ([ChatContext.tsx]) *)

Module ChatContext.
Section Provider.

Variable env : Env.
Variable collectionNameToElementString : CollectionName -> string.

  (** [useApi()] *)
Definition fetchItem {T} (q : Fetch T) : M T := ApiContext.fetchItem env q.
Definition updateItem := ApiContext.updateItem env collectionNameToElementString.
Definition sendMessage := ApiContext.sendMessage env.
Definition generateChatResponse := ApiContext.generateChatResponse env.

  (** [useState]: the setters.  A function of the provider reads the cells
      once, on entry, as the closure of a render does. *)
Definition setMessages (f : list MessageType -> list MessageType) : M unit :=
    set_state (fun s =>
      {| messages := f (messages s); pastChats := pastChats s;
         currentChatId := currentChatId s; agents := agents s;
         isGenerating := isGenerating s; currentChat := currentChat s |}).

Definition setPastChats (v : list AliceChat) : M unit :=
    set_state (fun s =>
      {| messages := messages s; pastChats := v;
         currentChatId := currentChatId s; agents := agents s;
         isGenerating := isGenerating s; currentChat := currentChat s |}).

Definition setCurrentChatId (v : option string) : M unit :=
    set_state (fun s =>
      {| messages := messages s; pastChats := pastChats s;
         currentChatId := v; agents := agents s;
         isGenerating := isGenerating s; currentChat := currentChat s |}).

Definition setAgents (v : list AliceAgent) : M unit :=
    set_state (fun s =>
      {| messages := messages s; pastChats := pastChats s;
         currentChatId := currentChatId s; agents := v;
         isGenerating := isGenerating s; currentChat := currentChat s |}).

Definition setIsGenerating (v : bool) : M unit :=
    set_state (fun s =>
      {| messages := messages s; pastChats := pastChats s;
         currentChatId := currentChatId s; agents := agents s;
         isGenerating := v; currentChat := currentChat s |}).

Definition setCurrentChat (v : option AliceChat) : M unit :=
    set_state (fun s =>
      {| messages := messages s; pastChats := pastChats s;
         currentChatId := currentChatId s; agents := agents s;
         isGenerating := isGenerating s; currentChat := v |}).

Definition fetchChats : M unit :=
    try_catch
      (chats <- fetchItem chats_all ;;
       setPastChats chats)
      (fun err => logger error_level "Error fetching chats:").

Definition fetchChatById (chatId : string) : M AliceChat :=
    try_catch
      (chatData <- fetchItem (chats_by_id chatId) ;;
       ret chatData)
      (fun err =>
         logger error_level "Error fetching chat by id:" ;;
         throw err).

Definition fetchCurrentChat : M unit :=
    s <- get_state ;;
    match truthy (currentChatId s) with
    | None => ret tt
    | Some currentChatId =>
        try_catch
          (chatData <- fetchChatById currentChatId ;;
           setCurrentChat (Some chatData) ;;
           setMessages (fun _ => chat_messages chatData) ;;
           setAgents [alice_agent chatData])
          (fun err => logger error_level "Error fetching current chat:")
    end.

Definition handleSelectChat (chatId : string) : M unit :=
    try_catch
      (chatData <- fetchChatById chatId ;;
       setCurrentChat (Some chatData) ;;
       setMessages (fun _ => chat_messages chatData) ;;
       setCurrentChatId (Some chatId) ;;
       setAgents [alice_agent chatData])
      (fun err => logger error_level "Error fetching chat:").

Definition generateResponse : M unit :=
    s <- get_state ;;
    match truthy (currentChatId s) with
    | None => ret tt
    | Some currentChatId =>
        setIsGenerating true ;;
        try_finally
          (try_catch
             (response <- generateChatResponse currentChatId ;;
              if (response : bool) then fetchCurrentChat else ret tt)
             (fun err => logger error_level "Error generating response:"))
          (setIsGenerating false)
    end.

  (** [handleSendMessage] with the computation it runs after the local
      append left open; the provider's is [handleSendMessage] below. *)
Definition handleSendMessage_then (next : M unit)
      (currentChatId : string) (message : MessageType) : M unit :=
    try_catch
      (sendMessage currentChatId message ;;
       setMessages (fun prevMessages => (prevMessages ++ [message])%list) ;;
       next)
      (fun err => logger error_level "Error sending message or generating response:").

Definition handleSendMessage : string -> MessageType -> M unit :=
    handleSendMessage_then generateResponse.

Definition last_message (l : list MessageType) : option MessageType :=
    nth_error l (length l - 1).

  (** The [while] loop of [handleRegenerateResponse]; every round pops one
      element, so the length of the array bounds the number of rounds. *)
Fixpoint pop_while_not_user (rounds : nat) (newMessages : list MessageType)
      : list MessageType :=
    match rounds with
    | O => newMessages
    | S rounds' =>
        match last_message newMessages with
        | Some m =>
            if negb (String.eqb (role m) "user")
            then pop_while_not_user rounds' (removelast newMessages)
            else newMessages
        | None => newMessages
        end
    end.

Definition trimmed (messages : list MessageType) : list MessageType :=
    pop_while_not_user (length messages) messages.

Definition messages_data (l : list MessageType) : ItemData :=
    {| data_messages := Some l; data_functions := None;
       data_transcript := None; data_rest := "" |}.

Definition handleRegenerateResponse : M unit :=
    s <- get_state ;;
    match truthy (currentChatId s) with
    | None => ret tt
    | Some currentChatId =>
        let newMessages := trimmed (messages s) in
        try_catch
          (updateItem Chats currentChatId (messages_data newMessages) ;;
           setMessages (fun _ => newMessages) ;;
           generateResponse)
          (fun err => logger error_level "Error regenerating response:")
    end.

  (** [task._id === taskId] *)
Definition has_id (taskId : string) (task : AliceTask) : bool :=
    match task_id task with
    | Some i => String.eqb i taskId
    | None => false
    end.

Definition isTaskInChat (s : ChatState) (taskId : string) : bool :=
    match currentChat s with
    | Some c =>
        match functions c with
        | Some fs => existsb (has_id taskId) fs
        | None => false
        end
    | None => false
    end.

Definition functions_data (l : list AliceTask) : ItemData :=
    {| data_messages := None; data_functions := Some l;
       data_transcript := None; data_rest := "" |}.

Definition addTaskToChat (taskId : string) : M unit :=
    s <- get_state ;;
    match truthy (currentChatId s), currentChat s with
    | Some currentChatId, Some currentChat =>
        try_catch
          (task <- fetchItem (tasks_by_id taskId) ;;
           match task with
           | None => logger error_level "Task not found"
           | Some task =>
               if isTaskInChat s taskId
               then logger warn_level "Task already in chat"
               else
                 let updatedFunctions :=
                   (match functions currentChat with
                    | Some fs => fs
                    | None => []
                    end ++ [task])%list in
                 updateItem Chats currentChatId (functions_data updatedFunctions) ;;
                 handleSelectChat currentChatId
           end)
          (fun err => logger error_level "Error adding tasks to chat:")
    | _, _ => ret tt
    end.

  (** [Array.isArray(x) ? x : [x]] *)
Definition as_array {A} (x : OneOrMany A) : list A :=
    match x with
    | Many xs => xs
    | One x => [x]
    end.

Definition fetchAvailableTasks : M (list AliceTask) :=
    try_catch
      (tasks <- fetchItem tasks_all ;;
       ret (as_array tasks))
      (fun err =>
         logger error_level "Error fetching available tasks:" ;;
         ret []).

Definition fetchAvailableTaskResults : M (list TaskResponse) :=
    try_catch
      (taskResults <- fetchItem taskresults_all ;;
       ret (as_array taskResults))
      (fun err =>
         logger error_level "Error fetching available task results:" ;;
         ret []).

End Provider.
End ChatContext.

(** ** Observations on traces *)

Definition is_await (e : Event) : bool :=
  match e with Await _ => true | _ => false end.

Definition is_success_notification (e : Event) : bool :=
  match e with AddNotification _ success _ _ => true | _ => false end.

Definition is_error_notification (e : Event) : bool :=
  match e with AddNotification _ error _ _ => true | _ => false end.

Definition is_emit (e : Event) : bool :=
  match e with Emit _ _ => true | _ => false end.

Definition is_transcription_call (e : Event) : bool :=
  match e with Await (apiRequestFileTranscript _ _ _) => true | _ => false end.

Definition is_generation_call (e : Event) : bool :=
  match e with Await (apiGenerateChatResponse _) => true | _ => false end.

Definition is_update_call (e : Event) : bool :=
  match e with Await (apiUpdateItem _ _ _) => true | _ => false end.

Definition count (p : Event -> bool) (l : list Event) : nat :=
  length (filter p l).

Definition is_dialog (e : Event) : bool :=
  match e with OpenDialog _ => true | _ => false end.

(** The events performed on the way from [w] to [w']. *)
Definition events_since (w w' : World) : list Event :=
  skipn (length (trace w)) (trace w').

(** The side-effect ordering contract on the events of one operation: a
    success notification needs a remote call settled before it and no
    publication before it; a publication needs a success notification
    before it. *)
Fixpoint ordered_from (awaited notified published : bool) (l : list Event)
    : bool :=
  match l with
  | [] => true
  | Await _ :: l' => ordered_from true notified published l'
  | AddNotification _ success _ _ :: l' =>
      awaited && negb published && ordered_from awaited true published l'
  | Emit _ _ :: l' => notified && ordered_from awaited notified true l'
  | _ :: l' => ordered_from awaited notified published l'
  end.

Definition notify_then_publish (l : list Event) : bool :=
  ordered_from false false false l.

(** The weaker order: a success notification needs a remote call settled
    before it, a publication needs a success notification before it. *)
Fixpoint caused_from (awaited notified : bool) (l : list Event) : bool :=
  match l with
  | [] => true
  | Await _ :: l' => caused_from true notified l'
  | AddNotification _ success _ _ :: l' => awaited && caused_from awaited true l'
  | Emit _ _ :: l' => notified && caused_from awaited notified l'
  | _ :: l' => caused_from awaited notified l'
  end.

Definition publish_after_notify (l : list Event) : bool :=
  caused_from false false l.

(** ** The operations of the facade, as its context value lists them *)

Inductive Operation :=
| call_fetchItem {T} (q : Fetch T)
| call_createItem (collectionName : CollectionName) (itemData : ItemData)
| call_updateItem (collectionName : CollectionName) (itemId : string)
    (itemData : ItemData)
| call_deleteItem (collectionName : CollectionName) (itemId : string)
| call_executeTask (taskId inputs : string)
| call_generateChatResponse (chatId : string)
| call_sendMessage (chatId : string) (message : MessageType)
| call_purgeAndReinitializeDatabase
| call_uploadFileContentReference (itemData : string)
| call_updateFile (file : string) (fileId : option string)
| call_retrieveFile (fileId : string)
| call_requestFileTranscript (fileId : string) (agentId chatId : option string)
| call_updateMessageInChat (chatId : string) (message : MessageType).

(** How an operation settles, its value forgotten. *)
Definition settled {A} (m : M A) : M unit := m ;; ret tt.

Definition perform (env : Env) (table : CollectionName -> string)
    (op : Operation) : M unit :=
  match op with
  | call_fetchItem q => settled (ApiContext.fetchItem env q)
  | call_createItem c d => settled (ApiContext.createItem env table c d)
  | call_updateItem c i d => settled (ApiContext.updateItem env table c i d)
  | call_deleteItem c i => settled (ApiContext.deleteItem env table c i)
  | call_executeTask t i => settled (ApiContext.executeTask env t i)
  | call_generateChatResponse c => settled (ApiContext.generateChatResponse env c)
  | call_sendMessage c m => settled (ApiContext.sendMessage env c m)
  | call_purgeAndReinitializeDatabase =>
      settled (ApiContext.purgeAndReinitializeDatabase env)
  | call_uploadFileContentReference d =>
      settled (ApiContext.uploadFileContentReference env d)
  | call_updateFile f i => settled (ApiContext.updateFile env f i)
  | call_retrieveFile f => settled (ApiContext.retrieveFile env f)
  | call_requestFileTranscript f a c =>
      settled (ApiContext.requestFileTranscript env table f a c)
  | call_updateMessageInChat c m => settled (ApiContext.updateMessageInChat env c m)
  end.

(** The two entries of the context value that are the bare [services/api]
    functions. *)
Definition passed_through (op : Operation) : bool :=
  match op with
  | call_fetchItem _ | call_retrieveFile _ => true
  | _ => false
  end.

Definition is_deleteItem (op : Operation) : bool :=
  match op with call_deleteItem _ _ => true | _ => false end.

Definition is_requestFileTranscript (op : Operation) : bool :=
  match op with call_requestFileTranscript _ _ _ => true | _ => false end.

(** The operations the provider wraps in one [try]/[catch] of its own that
    notifies and rethrows. *)
Definition wrapped (op : Operation) : bool :=
  negb (passed_through op || is_deleteItem op || is_requestFileTranscript op).

(** ** A backend that keeps what it is sent

    The remote backend is outside the repository.  To speak of a task being
    attached and then read back, this one stores chats and tasks, applies
    each update of a chat it has been sent and serves the stored records. *)

Record Store := {
  stored_chats : list AliceChat;
  stored_tasks : list AliceTask
}.

Definition chat_has_id (chatId : string) (c : AliceChat) : bool :=
  match chat_id c with
  | Some i => String.eqb i chatId
  | None => false
  end.

Definition patch_chat (d : ItemData) (c : AliceChat) : AliceChat :=
  {| chat_id := chat_id c;
     chat_messages := match data_messages d with
                      | Some l => l
                      | None => chat_messages c
                      end;
     alice_agent := alice_agent c;
     functions := match data_functions d with
                  | Some l => Some l
                  | None => functions c
                  end |}.

Definition apply_call (st : Store) (e : Event) : Store :=
  match e with
  | Await call =>
      match call with
      | apiUpdateItem Chats chatId d =>
          {| stored_chats :=
               map (fun c => if chat_has_id chatId c then patch_chat d c else c)
                   (stored_chats st);
             stored_tasks := stored_tasks st |}
      | _ => st
      end
  | _ => st
  end.

Definition store_after (initial : Store) (history : list Event) : Store :=
  fold_left apply_call history initial.

Definition not_served {T} : Result T := Throw (RemoteCallFailure "not served").

Definition storeBackend (initial : Store) (history : list Event) (T : Type)
    (call : Remote T) : Result T :=
  let st := store_after initial history in
  match call in Remote T return Result T with
  | apiFetchItem q =>
      match q in Fetch T return Result T with
      | chats_all => Ok (stored_chats st)
      | chats_by_id chatId =>
          match find (chat_has_id chatId) (stored_chats st) with
          | Some c => Ok c
          | None => Throw (RemoteCallFailure "chat not found")
          end
      | tasks_all => Ok (Many (stored_tasks st))
      | tasks_by_id taskId => Ok (find (ChatContext.has_id taskId) (stored_tasks st))
      | _ => not_served
      end
  | apiUpdateItem Chats chatId d =>
      match find (chat_has_id chatId) (stored_chats st) with
      | Some c => Ok (IChat (patch_chat d c))
      | None => Throw (RemoteCallFailure "chat not found")
      end
  | _ => not_served
  end.

Definition storeEnv (initial : Store) : Env :=
  {| backend := storeBackend initial; user := fun _ _ => Cancel |}.


(** ** Sample environments *)

Definition blank_agent : AliceAgent := {| agent_id := None; agent_name := "" |}.

(** A well-typed answer to every call; a fetched file carries [existing] as
    its transcript. *)
Definition answer (existing : option MessageType) {T} (call : Remote T) : T :=
  match call in Remote T return T with
  | apiFetchItem q =>
      match q in Fetch T return T with
      | chats_all => []
      | chats_by_id chatId =>
          {| chat_id := Some chatId; chat_messages := [];
             alice_agent := blank_agent; functions := None |}
      | tasks_all => Many []
      | tasks_by_id taskId => Some {| task_id := Some taskId; task_name := "" |}
      | taskresults_all => Many []
      | files_by_id fileId =>
          {| file_id := Some fileId; filename := ""; transcript := existing |}
      end
  | apiCreateItem _ d => IOther (Some "new") (data_rest d)
  | apiUpdateItem _ itemId d => IOther (Some itemId) (data_rest d)
  | apiDeleteItem _ _ => tt
  | apiExecuteTask taskId _ =>
      {| taskresponse_id := Some taskId; task_outputs := "" |}
  | apiGenerateChatResponse _ => true
  | apiSendMessage chatId message =>
      {| chat_id := Some chatId; chat_messages := [message];
         alice_agent := blank_agent; functions := None |}
  | apiPurgeAndReinitializeDatabase => tt
  | apiUploadFileContentReference _ =>
      {| file_id := Some "new"; filename := ""; transcript := None |}
  | apiUpdateFile _ fileId =>
      {| file_id := fileId; filename := ""; transcript := None |}
  | apiRetrieveFile _ => ""
  | apiRequestFileTranscript _ _ _ =>
      {| message_id := None; role := "assistant"; content := "transcript" |}
  | apiUpdateMessageInChat _ message => message
  end.

(** The backend that fails the calls [refused] picks and answers the rest;
    the user always makes the same choice. *)
Definition scriptedEnv (refused : Event -> bool) (existing : option MessageType)
    (choice : Choice) : Env :=
  {| backend := fun _ T call =>
       if refused (Await call)
       then Throw (RemoteCallFailure "refused")
       else Ok (answer existing call);
     user := fun _ _ => choice |}.

(** A backend that answers a fetch of the whole tasks or task results
    collection with one bare item. *)
Definition scalarEnv (task : AliceTask) (result : TaskResponse) : Env :=
  {| backend := fun _ T call =>
       match call in Remote T return Result T with
       | apiFetchItem q =>
           match q in Fetch T return Result T with
           | tasks_all => Ok (One task)
           | taskresults_all => Ok (One result)
           | _ => not_served
           end
       | _ => not_served
       end;
     user := fun _ _ => Cancel |}.

Definition sample_task : AliceTask :=
  {| task_id := Some "t1"; task_name := "search" |}.

Definition sample_result : TaskResponse :=
  {| taskresponse_id := Some "r1"; task_outputs := "done" |}.

Definition nothing_refused (e : Event) : bool := false.
Definition everything_refused (e : Event) : bool := true.

Definition elementString (c : CollectionName) : string :=
  match c with
  | Agents => "Agent"
  | Chats => "Chat"
  | Models => "Model"
  | Tasks => "Task"
  | Files => "File"
  | Messages => "Message"
  | TaskResults => "TaskResponse"
  end.

Definition initialState : ChatState :=
  {| messages := []; pastChats := []; currentChatId := None; agents := [];
     isGenerating := false; currentChat := None |}.

Definition initialWorld : World := {| trace := []; chat := initialState |}.

Definition user_says (text : string) : MessageType :=
  {| message_id := None; role := "user"; content := text |}.

Definition assistant_says (text : string) : MessageType :=
  {| message_id := None; role := "assistant"; content := text |}.

Definition sample_chat : AliceChat :=
  {| chat_id := Some "c1";
     chat_messages := [user_says "hi"; assistant_says "a"; assistant_says "b"];
     alice_agent := blank_agent;
     functions := None |}.

(** The state after the chat ["c1"] has been selected. *)
Definition chattingState : ChatState :=
  {| messages := chat_messages sample_chat; pastChats := [sample_chat];
     currentChatId := Some "c1"; agents := [blank_agent];
     isGenerating := false; currentChat := Some sample_chat |}.

Definition chattingWorld : World := {| trace := []; chat := chattingState |}.

(** The state in which [message] has been appended to the local sequence. *)
Definition with_appended (message : MessageType) (s : ChatState) : ChatState :=
  {| messages := messages s ++ [message]; pastChats := pastChats s;
     currentChatId := currentChatId s; agents := agents s;
     isGenerating := isGenerating s; currentChat := currentChat s |}.

(** The worlds the provider comes to when, from its initial state, the
    components call its functions one after the other. *)
Inductive reachable (env : Env) (table : CollectionName -> string)
    : World -> Prop :=
| reach_initial : reachable env table initialWorld
| reach_fetchChats w :
    reachable env table w ->
    reachable env table (snd (ChatContext.fetchChats env w))
| reach_handleSelectChat w chatId :
    reachable env table w ->
    reachable env table (snd (ChatContext.handleSelectChat env chatId w))
| reach_handleSendMessage w chatId message :
    reachable env table w ->
    reachable env table
      (snd (ChatContext.handleSendMessage env chatId message w))
| reach_generateResponse w :
    reachable env table w ->
    reachable env table (snd (ChatContext.generateResponse env w))
| reach_handleRegenerateResponse w :
    reachable env table w ->
    reachable env table
      (snd (ChatContext.handleRegenerateResponse env table w))
| reach_addTaskToChat w taskId :
    reachable env table w ->
    reachable env table (snd (ChatContext.addTaskToChat env table taskId w))
| reach_fetchAvailableTasks w :
    reachable env table w ->
    reachable env table (snd (ChatContext.fetchAvailableTasks env w))
| reach_fetchAvailableTaskResults w :
    reachable env table w ->
    reachable env table (snd (ChatContext.fetchAvailableTaskResults env w)).

(** The state in which the local sequence has been replaced by [l]. *)
Definition with_messages (l : list MessageType) (s : ChatState) : ChatState :=
  {| messages := l; pastChats := pastChats s;
     currentChatId := currentChatId s; agents := agents s;
     isGenerating := isGenerating s; currentChat := currentChat s |}.

(** A storing backend that holds the chat ["c1"] and the task ["t1"]. *)
Definition sample_store : Store :=
  {| stored_chats := [sample_chat]; stored_tasks := [sample_task] |}.

(** ** Further observations on traces *)

Definition is_notification (e : Event) : bool :=
  match e with AddNotification _ _ _ _ => true | _ => false end.

Definition is_chat_fetch (e : Event) : bool :=
  match e with
  | Await (apiFetchItem (chats_by_id _)) => true
  | _ => false
  end.

(** What was published on the Event Bus, in order. *)
Fixpoint publications (l : list Event) : list (string * Payload) :=
  match l with
  | [] => []
  | Emit key payload :: l' => (key, payload) :: publications l'
  | _ :: l' => publications l'
  end.

(** The error notifications shown, in order. *)
Fixpoint error_messages (l : list Event) : list string :=
  match l with
  | [] => []
  | AddNotification message error _ _ :: l' => message :: error_messages l'
  | _ :: l' => error_messages l'
  end.

Definition all_collections : list CollectionName :=
  [Agents; Chats; Models; Tasks; Files; Messages; TaskResults].

(** The keys of the Event Bus: ["<eventType>:<collectionName>"] for the three
    event types, and the bare ["databasePurged"]. *)
Definition bus_key (key : string) : bool :=
  String.eqb key "databasePurged"
  || existsb
       (fun c =>
          existsb
            (fun eventType =>
               String.eqb key (eventType ++ ":" ++ collectionName_text c))
            ["created"; "updated"; "deleted"])
       all_collections.

(** A backend whose generation endpoint reports that nothing was
    generated; every other call is answered. *)
Definition decliningEnv : Env :=
  {| backend := fun _ T call =>
       match call in Remote T return Result T with
       | apiGenerateChatResponse _ => Ok false
       | other => Ok (answer None other)
       end;
     user := fun _ _ => Cancel |}.

(** The chats for which a generation was requested, in order. *)
Fixpoint generation_calls (l : list Event) : list string :=
  match l with
  | [] => []
  | Await (apiGenerateChatResponse chatId) :: l' => chatId :: generation_calls l'
  | _ :: l' => generation_calls l'
  end.

(** The state in which the flag has been set to [v]. *)
Definition with_generating (v : bool) (s : ChatState) : ChatState :=
  {| messages := messages s; pastChats := pastChats s;
     currentChatId := currentChatId s; agents := agents s;
     isGenerating := v; currentChat := currentChat s |}.

(** The state after [chatData] has been loaded as the current chat. *)
Definition with_chat (chatData : AliceChat) (s : ChatState) : ChatState :=
  {| messages := chat_messages chatData; pastChats := pastChats s;
     currentChatId := currentChatId s; agents := [alice_agent chatData];
     isGenerating := isGenerating s; currentChat := Some chatData |}.

(** The state after [chatData] has been selected under [chatId]. *)
Definition with_selected (chatId : string) (chatData : AliceChat)
    (s : ChatState) : ChatState :=
  {| messages := chat_messages chatData; pastChats := pastChats s;
     currentChatId := Some chatId; agents := [alice_agent chatData];
     isGenerating := isGenerating s; currentChat := Some chatData |}.

(** The current chat, its identifier and the agent list go together. *)
Definition coherent (s : ChatState) : Prop :=
  match currentChat s with
  | Some c => agents s = [alice_agent c] /\ currentChatId s <> None
  | None => agents s = [] /\ currentChatId s = None
  end.

(** A storing backend that holds the chat ["c1"], with a task attached that
    the provider has not loaded, and the task ["t1"]. *)
Definition other_task : AliceTask :=
  {| task_id := Some "t0"; task_name := "attached elsewhere" |}.

Definition diverged_store : Store :=
  {| stored_chats :=
       [{| chat_id := Some "c1"; chat_messages := [user_says "hi"];
           alice_agent := blank_agent; functions := Some [other_task] |}];
     stored_tasks := [sample_task] |}.

(** A storing backend that holds the chat ["c1"] and no task. *)
Definition taskless_store : Store :=
  {| stored_chats := [sample_chat]; stored_tasks := [] |}.

(** The most remote calls one run of an operation awaits: one, or more
    where the operation fetches again or persists after its first call. *)
Definition remote_call_budget (op : Operation) : nat :=
  match op with
  | call_generateChatResponse _ | call_updateMessageInChat _ _ => 2
  | call_requestFileTranscript _ _ _ => 3
  | _ => 1
  end.

(** The operations that wait for the user. *)
Definition asks_user (op : Operation) : bool :=
  is_deleteItem op || is_requestFileTranscript op.

(** The failures the backend answered with to the calls awaited in [new],
    the events of a run that started after [history], in order. *)
Fixpoint failures (env : Env) (history new : list Event) : list Error :=
  match new with
  | [] => []
  | ev :: rest =>
      match ev with
      | Await call =>
          match backend env history _ call with
          | Throw e => [e]
          | Ok _ => []
          end
      | _ => []
      end ++ failures env (history ++ [ev]) rest
  end.

(** The error notification [requestFileTranscript] itself shows when it
    rejects: the one of the handler around the dialog if a dialog was
    opened, the one of the outer [catch] otherwise. *)
Definition own_transcript_error (new : list Event) : string :=
  if existsb is_dialog new
  then "Error generating new transcript"
  else "Error requesting transcript".





(** * Properties *)

Open Scope list_scope.

Ltac tidy :=
  cbv beta iota zeta;
  cbn [trace chat fst snd messages pastChats currentChatId agents
       isGenerating currentChat].

Ltac run :=
  cbv [ApiContext.fetchItem ApiContext.retrieveFile ApiContext.createItem
       ApiContext.updateItem ApiContext.deleteItem ApiContext.executeTask
       ApiContext.generateChatResponse ApiContext.sendMessage
       ApiContext.uploadFileContentReference ApiContext.updateFile
       ApiContext.existing_transcript_dialog ApiContext.requestFileTranscript
       ApiContext.updateMessageInChat ApiContext.purgeAndReinitializeDatabase
       ApiContext.await ApiContext.openDialog ApiContext.emitEvent
       ChatContext.fetchItem ChatContext.updateItem ChatContext.sendMessage
       ChatContext.generateChatResponse
       ChatContext.setMessages ChatContext.setPastChats
       ChatContext.setCurrentChatId ChatContext.setAgents
       ChatContext.setIsGenerating ChatContext.setCurrentChat
       ChatContext.fetchChats ChatContext.fetchChatById
       ChatContext.fetchCurrentChat ChatContext.handleSelectChat
       ChatContext.generateResponse ChatContext.handleSendMessage_then
       ChatContext.handleSendMessage ChatContext.handleRegenerateResponse
       ChatContext.addTaskToChat ChatContext.fetchAvailableTasks
       ChatContext.fetchAvailableTaskResults
       settled perform
       bind ret throw try_catch try_finally record addNotification logger
       get_state set_state];
  tidy.

(** Splits on how the environment answers the next call or dialog. *)
Ltac ask_env :=
  match goal with
  | |- context [match backend ?env ?h ?T ?c with _ => _ end] =>
      destruct (backend env h T c) eqn:?
  | |- context [match user ?env ?h ?d with _ => _ end] =>
      destruct (user env h d) eqn:?
  | |- context [if ?b then _ else _] => is_var b; destruct b
  end; tidy.

(** Brings a trace to the form [old ++ [e1; ...; en]]. *)
Ltac flatten_trace := repeat rewrite <- app_assoc; cbn [app].

(** ** deleteItem *)

(** C2.  [deleteItem] always resolves, never rejects; it resolves [true]
    exactly when the user confirmed the dialog and the remote delete
    succeeded, and [false] otherwise; when the user cancels no remote call is
    issued, and when the user confirms exactly one is. *)
Theorem deleteItem_true_iff_confirmed_and_deleted
    (env : Env) (table : CollectionName -> string)
    (collectionName : CollectionName) (itemId : string) (w : World) :
  let options := ApiContext.deletion_dialog table collectionName in
  let choice := user env (trace w) options in
  let outcome :=
    backend env (trace w ++ [OpenDialog options]) unit
      (apiDeleteItem collectionName itemId) in
  exists (b : bool) (new : list Event),
    ApiContext.deleteItem env table collectionName itemId w
      = (Ok b, {| trace := trace w ++ new; chat := chat w |})
    /\ (b = true <-> choice = Confirm /\ exists u, outcome = Ok u)
    /\ (b = false <-> choice = Cancel \/ exists e, outcome = Throw e)
    /\ count is_await new = match choice with Confirm => 1 | Cancel => 0 end.
Proof.
  intros options choice outcome. subst choice outcome options. run.
  destruct (user env (trace w) _) eqn:Huser; tidy.
  - destruct (backend env _ unit _) as [[] | e] eqn:Hcall; tidy.
    + flatten_trace. eexists true, _. split; [reflexivity |].
      repeat split; eauto; try discriminate.
      intros [H | [e H]]; discriminate.
    + flatten_trace. eexists false, _. split; [reflexivity |].
      repeat split; eauto; try discriminate.
      intros [_ [u H]]; discriminate.
  - flatten_trace. eexists false, _. split; [reflexivity |].
    repeat split; eauto; try discriminate.
    intros [H _]; discriminate.
Qed.

Lemma deleteItem_true_iff_confirmed_and_deleted_witness :
  exists (b : bool) (new : list Event),
    ApiContext.deleteItem (scriptedEnv nothing_refused None Confirm)
      elementString Chats "c1" initialWorld
      = (Ok b, {| trace := [] ++ new; chat := initialState |})
    /\ (b = true <-> Confirm = Confirm /\ exists u, Ok tt = Ok u)
    /\ (b = false <->
        Confirm = Cancel
        \/ exists e, @Ok unit tt = Throw e)
    /\ count is_await new = 1.
Proof.
  exact (deleteItem_true_iff_confirmed_and_deleted
           (scriptedEnv nothing_refused None Confirm) elementString
           Chats "c1" initialWorld).
Defined.

(** ** fetchAvailableTasks and fetchAvailableTaskResults *)

(** C9.  When the backend answers with a single item the two functions
    resolve with the one-element sequence holding it; when it answers with
    a collection they resolve with that collection unchanged. *)
Theorem fetchAvailable_one_or_many (env : Env) (w : World) :
  (forall task : AliceTask,
      backend env (trace w) _ (apiFetchItem tasks_all) = Ok (One task) ->
      fst (ChatContext.fetchAvailableTasks env w) = Ok [task])
  /\ (forall l : list AliceTask,
      backend env (trace w) _ (apiFetchItem tasks_all) = Ok (Many l) ->
      fst (ChatContext.fetchAvailableTasks env w) = Ok l)
  /\ (forall result : TaskResponse,
      backend env (trace w) _ (apiFetchItem taskresults_all) = Ok (One result) ->
      fst (ChatContext.fetchAvailableTaskResults env w) = Ok [result])
  /\ (forall l : list TaskResponse,
      backend env (trace w) _ (apiFetchItem taskresults_all) = Ok (Many l) ->
      fst (ChatContext.fetchAvailableTaskResults env w) = Ok l).
Proof.
  repeat split; intros x H; run; rewrite H; reflexivity.
Qed.

(** C10.  When the underlying fetch fails the two functions resolve with the
    empty sequence instead of rejecting, which is also what they resolve
    with when the backend holds an empty collection: the returned value does
    not tell the two situations apart. *)
Theorem fetchAvailable_failure_is_empty (env : Env) (w : World) (e : Error) :
  (backend env (trace w) _ (apiFetchItem tasks_all) = Throw e ->
   fst (ChatContext.fetchAvailableTasks env w) = Ok []
   /\ forall env' w',
        backend env' (trace w') _ (apiFetchItem tasks_all) = Ok (Many []) ->
        fst (ChatContext.fetchAvailableTasks env' w')
        = fst (ChatContext.fetchAvailableTasks env w))
  /\ (backend env (trace w) _ (apiFetchItem taskresults_all) = Throw e ->
      fst (ChatContext.fetchAvailableTaskResults env w) = Ok []
      /\ forall env' w',
           backend env' (trace w') _ (apiFetchItem taskresults_all) = Ok (Many []) ->
           fst (ChatContext.fetchAvailableTaskResults env' w')
           = fst (ChatContext.fetchAvailableTaskResults env w)).
Proof.
  split; intros H; (split; [| intros env' w' H']); run;
    rewrite H; try rewrite H'; reflexivity.
Qed.

Lemma fetchAvailable_one_or_many_witness :
  fst (ChatContext.fetchAvailableTasks (scalarEnv sample_task sample_result)
         initialWorld) = Ok [sample_task]
  /\ fst (ChatContext.fetchAvailableTasks
            (scriptedEnv nothing_refused None Cancel) initialWorld) = Ok []
  /\ fst (ChatContext.fetchAvailableTaskResults
            (scalarEnv sample_task sample_result) initialWorld)
     = Ok [sample_result]
  /\ fst (ChatContext.fetchAvailableTaskResults
            (scriptedEnv nothing_refused None Cancel) initialWorld) = Ok [].
Proof.
  pose proof (fetchAvailable_one_or_many
                (scalarEnv sample_task sample_result) initialWorld)
    as [Hone [_ [Hone' _]]].
  pose proof (fetchAvailable_one_or_many
                (scriptedEnv nothing_refused None Cancel) initialWorld)
    as [_ [Hmany [_ Hmany']]].
  split; [apply Hone; reflexivity |].
  split; [apply Hmany; reflexivity |].
  split; [apply Hone'; reflexivity |].
  apply Hmany'; reflexivity.
Defined.

Lemma fetchAvailable_failure_is_empty_witness :
  fst (ChatContext.fetchAvailableTasks
         (scriptedEnv everything_refused None Cancel) initialWorld) = Ok []
  /\ fst (ChatContext.fetchAvailableTasks
            (scriptedEnv nothing_refused None Cancel) initialWorld)
     = fst (ChatContext.fetchAvailableTasks
              (scriptedEnv everything_refused None Cancel) initialWorld)
  /\ fst (ChatContext.fetchAvailableTaskResults
            (scriptedEnv everything_refused None Cancel) initialWorld) = Ok []
  /\ fst (ChatContext.fetchAvailableTaskResults
            (scriptedEnv nothing_refused None Cancel) initialWorld)
     = fst (ChatContext.fetchAvailableTaskResults
              (scriptedEnv everything_refused None Cancel) initialWorld).
Proof.
  destruct (fetchAvailable_failure_is_empty
              (scriptedEnv everything_refused None Cancel) initialWorld
              (RemoteCallFailure "refused")) as [Htasks Hresults].
  destruct (Htasks eq_refl) as [H1 H2].
  destruct (Hresults eq_refl) as [H3 H4].
  split; [exact H1 |].
  split; [apply H2; reflexivity |].
  split; [exact H3 |].
  apply H4; reflexivity.
Defined.

(** ** handleSendMessage *)

(** C5.  If the remote send rejects, [handleSendMessage] leaves the whole
    local state, and so the message sequence, as it was; it performs the
    send, the facade's error notification and its own log entry and nothing
    else, whatever computation stands in the place of [generateResponse],
    which is therefore not invoked.  If the send succeeds, the message is
    appended after the send's effects and before that computation starts. *)
Theorem handleSendMessage_rejected_send_changes_nothing
    (env : Env) (chatId : string) (message : MessageType) (w : World) :
  (forall e,
      backend env (trace w) _ (apiSendMessage chatId message) = Throw e ->
      let w' :=
        {| trace := trace w ++
             [Await (apiSendMessage chatId message);
              AddNotification "Error sending message" error None None;
              Log error_level "Error sending message or generating response:"];
           chat := chat w |} in
      (forall next,
          ChatContext.handleSendMessage_then env next chatId message w
          = (Ok tt, w'))
      /\ ChatContext.handleSendMessage env chatId message w = (Ok tt, w')
      /\ messages (chat w') = messages (chat w)
      /\ length (messages (chat w')) = length (messages (chat w))
      /\ count is_generation_call (trace w') = count is_generation_call (trace w))
  /\ (forall result,
      backend env (trace w) _ (apiSendMessage chatId message) = Ok result ->
      forall next,
        ChatContext.handleSendMessage_then env next chatId message w
        = try_catch next
            (fun _ => logger error_level
                        "Error sending message or generating response:")
            {| trace := trace w ++
                 [Await (apiSendMessage chatId message);
                  AddNotification "Message sent successfully" success None None;
                  Emit "created:messages" (PItem (IMessage message));
                  Emit "updated:chats" (PItem (IChat result))];
               chat := with_appended message (chat w) |}).
Proof.
  split.
  - intros e H w'.
    assert (Hthen : forall next,
               ChatContext.handleSendMessage_then env next chatId message w
               = (Ok tt, w')).
    { intros next. subst w'. run. rewrite H. tidy. flatten_trace. reflexivity. }
    split; [exact Hthen |].
    split; [apply Hthen |].
    split; [reflexivity |].
    split; [reflexivity |].
    subst w'. cbn [trace]. unfold count. rewrite filter_app, length_app.
    cbn. lia.
  - intros result H next. run. rewrite H. tidy. flatten_trace.
    reflexivity.
Qed.

Lemma handleSendMessage_rejected_send_changes_nothing_witness :
  ChatContext.handleSendMessage (scriptedEnv everything_refused None Cancel)
    "c1" (user_says "again") chattingWorld
  = (Ok tt,
     {| trace :=
          [Await (apiSendMessage "c1" (user_says "again"));
           AddNotification "Error sending message" error None None;
           Log error_level "Error sending message or generating response:"];
        chat := chattingState |})
  /\ messages
       (chat (snd (ChatContext.handleSendMessage_then
                     (scriptedEnv nothing_refused None Cancel) (ret tt)
                     "c1" (user_says "again") chattingWorld)))
     = [user_says "hi"; assistant_says "a"; assistant_says "b";
        user_says "again"].
Proof.
  destruct (handleSendMessage_rejected_send_changes_nothing
              (scriptedEnv everything_refused None Cancel)
              "c1" (user_says "again") chattingWorld) as [Hrejected _].
  destruct (Hrejected (RemoteCallFailure "refused") eq_refl) as [_ [H _]].
  split; [exact H |].
  destruct (handleSendMessage_rejected_send_changes_nothing
              (scriptedEnv nothing_refused None Cancel)
              "c1" (user_says "again") chattingWorld) as [_ Hsent].
  rewrite (Hsent _ eq_refl (ret tt)). reflexivity.
Defined.

(** ** generateResponse *)

Ltac settle_flag :=
  run;
  repeat match goal with
         | |- context [match truthy ?i with _ => _ end] => destruct (truthy i) eqn:?
         | |- context [match currentChat ?s with _ => _ end] =>
             destruct (currentChat s) eqn:?
         | |- context [match ?o with Some _ => _ | None => _ end] =>
             is_var o; destruct o
         | |- context [if ChatContext.isTaskInChat ?s ?i then _ else _] =>
             destruct (ChatContext.isTaskInChat s i)
         | _ => ask_env
         | _ => progress tidy
         end;
  try reflexivity; try assumption.

Lemma generateResponse_keeps_flag_down env w :
  isGenerating (chat w) = false ->
  isGenerating (chat (snd (ChatContext.generateResponse env w))) = false.
Proof. intros H. settle_flag. Qed.

Lemma reachable_not_generating env table w :
  reachable env table w -> isGenerating (chat w) = false.
Proof.
  induction 1 as [| w _ IH | w chatId _ IH | w chatId message _ IH | w _ IH
                  | w _ IH | w taskId _ IH | w _ IH | w _ IH].
  - reflexivity.
  - settle_flag.
  - settle_flag.
  - settle_flag.
  - apply generateResponse_keeps_flag_down, IH.
  - settle_flag.
  - settle_flag.
  - settle_flag.
  - settle_flag.
Qed.

(** C7.  [generateResponse] always settles without rejecting.  With a chat
    selected, [isGenerating] is [false] afterwards whatever the remote
    generation call and the re-fetch that may follow it do: resolve truthy,
    resolve falsy or reject.  With no chat selected it is a no-op, so the
    flag stays [false]; it is [false] on entry in every world the provider's
    own functions lead to. *)
Theorem generateResponse_leaves_isGenerating_false (env : Env) (w : World) :
  fst (ChatContext.generateResponse env w) = Ok tt
  /\ (forall chatId,
       truthy (currentChatId (chat w)) = Some chatId ->
       isGenerating (chat (snd (ChatContext.generateResponse env w))) = false)
  /\ (truthy (currentChatId (chat w)) = None ->
       ChatContext.generateResponse env w = (Ok tt, w))
  /\ (isGenerating (chat w) = false ->
       isGenerating (chat (snd (ChatContext.generateResponse env w))) = false)
  /\ (forall table,
       reachable env table w ->
       isGenerating (chat (snd (ChatContext.generateResponse env w))) = false).
Proof.
  assert (Hdown : isGenerating (chat w) = false ->
                  isGenerating (chat (snd (ChatContext.generateResponse env w)))
                  = false)
    by apply generateResponse_keeps_flag_down.
  assert (Hreach : forall table,
             reachable env table w ->
             isGenerating (chat (snd (ChatContext.generateResponse env w)))
             = false)
    by (intros table Hr; apply Hdown, (reachable_not_generating _ _ _ Hr)).
  assert (Hselected : forall chatId,
             truthy (currentChatId (chat w)) = Some chatId ->
             fst (ChatContext.generateResponse env w) = Ok tt
             /\ isGenerating (chat (snd (ChatContext.generateResponse env w)))
                = false).
  { intros chatId H. run. rewrite H. tidy.
    repeat (ask_env; try (rewrite H; tidy)); split; reflexivity. }
  assert (Hnone : truthy (currentChatId (chat w)) = None ->
                  ChatContext.generateResponse env w = (Ok tt, w)).
  { intros H. run. rewrite H. destruct w; reflexivity. }
  destruct (truthy (currentChatId (chat w))) as [chatId |] eqn:H.
  - destruct (Hselected chatId eq_refl) as [H1 H2].
    split; [exact H1 |]. split; [intros; exact H2 |].
    split; [discriminate |]. split; assumption.
  - split; [rewrite (Hnone eq_refl); reflexivity |].
    split; [discriminate |].
    split; [exact Hnone |]. split; assumption.
Qed.

Lemma generateResponse_leaves_isGenerating_false_witness :
  truthy (currentChatId chattingState) = Some "c1"
  /\ isGenerating
       (chat (snd (ChatContext.generateResponse
                     (scriptedEnv nothing_refused None Cancel) chattingWorld)))
     = false
  /\ isGenerating
       (chat (snd (ChatContext.generateResponse
                     (scriptedEnv everything_refused None Cancel) chattingWorld)))
     = false
  /\ ChatContext.generateResponse (scriptedEnv nothing_refused None Cancel)
       initialWorld = (Ok tt, initialWorld)
  /\ isGenerating
       (chat (snd (ChatContext.generateResponse
                     (scriptedEnv nothing_refused None Cancel) initialWorld)))
     = false.
Proof.
  split; [reflexivity |].
  destruct (generateResponse_leaves_isGenerating_false
              (scriptedEnv nothing_refused None Cancel) chattingWorld)
    as [_ [Hresolved _]].
  destruct (generateResponse_leaves_isGenerating_false
              (scriptedEnv everything_refused None Cancel) chattingWorld)
    as [_ [Hrejected _]].
  destruct (generateResponse_leaves_isGenerating_false
              (scriptedEnv nothing_refused None Cancel) initialWorld)
    as [_ [_ [Hnoop [Hdown Hreach]]]].
  split; [exact (Hresolved "c1" eq_refl) |].
  split; [exact (Hrejected "c1" eq_refl) |].
  split; [exact (Hnoop eq_refl) |].
  exact (Hreach elementString (reach_initial _ _)).
Defined.

(** ** handleRegenerateResponse *)

Section Trimming.

Let non_user (m : MessageType) : Prop := role m <> "user".

Lemma last_message_snoc (l : list MessageType) (m : MessageType) :
    ChatContext.last_message (l ++ [m]) = Some m.
  Proof.
    unfold ChatContext.last_message.
    rewrite last_length, Nat.sub_1_r. cbn [Nat.pred].
    rewrite nth_error_app2 by lia. rewrite Nat.sub_diag. reflexivity.
  Qed.

  (** One round of the loop on an array that ends with [m]. *)
Lemma pop_while_not_user_snoc (rounds : nat) (l : list MessageType)
      (m : MessageType) :
    ChatContext.pop_while_not_user (S rounds) (l ++ [m])
    = if negb (String.eqb (role m) "user")
      then ChatContext.pop_while_not_user rounds l
      else l ++ [m].
  Proof.
    cbn [ChatContext.pop_while_not_user].
    rewrite last_message_snoc, removelast_last. reflexivity.
  Qed.

Lemma pop_while_not_user_nil (rounds : nat) :
    ChatContext.pop_while_not_user rounds [] = [].
  Proof. destruct rounds; reflexivity. Qed.

  (** The loop, given at least as many rounds as the array is long, splits
      the array into what it keeps and a removed tail of non-user messages,
      and what it keeps is empty or ends with a user message: the loop
      condition is false on it, so no round was missing. *)
Lemma pop_while_not_user_spec (l : list MessageType) :
    forall rounds, length l <= rounds ->
    exists removed,
      l = ChatContext.pop_while_not_user rounds l ++ removed
      /\ Forall non_user removed
      /\ (ChatContext.pop_while_not_user rounds l = []
          \/ exists init u,
               ChatContext.pop_while_not_user rounds l = init ++ [u]
               /\ role u = "user").
  Proof.
    induction l as [| m l IH] using rev_ind; intros rounds Hlen.
    - exists []. rewrite pop_while_not_user_nil.
      split; [reflexivity |]. split; [constructor | left; reflexivity].
    - rewrite last_length in Hlen.
      destruct rounds as [| rounds]; [lia |].
      rewrite pop_while_not_user_snoc.
      destruct (String.eqb (role m) "user") eqn:Hrole; cbn [negb].
      + exists []. rewrite app_nil_r.
        split; [reflexivity |]. split; [constructor |].
        right. exists l, m. split; [reflexivity |].
        apply String.eqb_eq, Hrole.
      + destruct (IH rounds ltac:(lia)) as [removed [Hsplit [Hall Hstop]]].
        exists (removed ++ [m]).
        split; [rewrite app_assoc, <- Hsplit; reflexivity |].
        split; [| exact Hstop].
        apply Forall_app. split; [exact Hall |].
        constructor; [| constructor].
        apply String.eqb_neq, Hrole.
  Qed.

Lemma trimmed_without_user (l : list MessageType) :
    (forall m, In m l -> role m <> "user") -> ChatContext.trimmed l = [].
  Proof.
    intros Hnone.
    destruct (pop_while_not_user_spec l (length l) (le_n _))
      as [removed [Hsplit [_ [Hnil | [init [u [Hkept Huser]]]]]]].
    - exact Hnil.
    - exfalso. apply (Hnone u); [| exact Huser].
      rewrite Hsplit, Hkept. apply in_or_app. left.
      apply in_or_app. right. left. reflexivity.
  Qed.

End Trimming.

(** A [catch] around a computation that does not throw does nothing. *)
Lemma try_catch_settled (m : M unit) (handler : Error -> M unit) (w : World) :
  fst (m w) = Ok tt -> try_catch m handler w = m w.
Proof.
  unfold try_catch. destruct (m w) as [[[] | e] w']; cbn [fst]; intros H;
    [reflexivity | discriminate].
Qed.

Lemma generateResponse_settles env w :
  fst (ChatContext.generateResponse env w) = Ok tt.
Proof.
  run. destruct (truthy (currentChatId (chat w))) eqn:H; [| reflexivity].
  tidy. repeat (ask_env; try (rewrite H; tidy)); reflexivity.
Qed.

(** C6.  The sequence [handleRegenerateResponse] computes is the local
    sequence without its maximal trailing run of messages whose role is not
    "user": the sequence is what is kept followed by what is removed, no
    removed message is a user message, and what is kept is empty or ends
    with a user message.  With a chat selected, the first thing the function
    does is persist that sequence with [updateItem], as the [messages] of the
    data it sends and nothing else; when that succeeds it
    becomes the local sequence and [generateResponse] runs next; when it
    fails, the local state is untouched.  On [user "hi"; assistant "a";
    assistant "b"] the sequence is [user "hi"]; with no user message it is
    empty. *)
Theorem handleRegenerateResponse_trims_trailing_non_user
    (env : Env) (table : CollectionName -> string) (w : World) :
  let kept := ChatContext.trimmed (messages (chat w)) in
  (exists removed,
      messages (chat w) = kept ++ removed
      /\ Forall (fun m => role m <> "user") removed
      /\ (kept = [] \/ exists init u, kept = init ++ [u] /\ role u = "user"))
  /\ (forall chatId,
      truthy (currentChatId (chat w)) = Some chatId ->
      let persist :=
        apiUpdateItem Chats chatId
          {| data_messages := Some kept; data_functions := None;
             data_transcript := None; data_rest := "" |} in
      (forall item,
          backend env (trace w) _ persist = Ok item ->
          ChatContext.handleRegenerateResponse env table w
          = ChatContext.generateResponse env
              {| trace := trace w ++
                   [Await persist;
                    AddNotification "chats updated successfully" success
                      (Some 5000)
                      (Some {| label := "View";
                               onClick := {| card_element := table Chats;
                                             card_id := Some chatId;
                                             card_item := None |} |});
                    Emit "updated:chats" (PItem item)];
                 chat := with_messages kept (chat w) |})
      /\ (forall e,
          backend env (trace w) _ persist = Throw e ->
          ChatContext.handleRegenerateResponse env table w
          = (Ok tt,
             {| trace := trace w ++
                  [Await persist;
                   AddNotification "Error updating chats" error None None;
                   Log error_level "Error regenerating response:"];
                chat := chat w |})))
  /\ ChatContext.trimmed [user_says "hi"; assistant_says "a"; assistant_says "b"]
     = [user_says "hi"]
  /\ ((forall m, In m (messages (chat w)) -> role m <> "user") -> kept = []).
Proof.
  intros kept. split; [| split; [| split]].
  - apply pop_while_not_user_spec, le_n.
  - intros chatId Hid persist. split.
    + intros item Hok. subst persist kept.
      cbv [ChatContext.handleRegenerateResponse ChatContext.updateItem
           ApiContext.updateItem ApiContext.await ApiContext.emitEvent
           ChatContext.setMessages ChatContext.messages_data
           bind ret throw try_catch record
           addNotification logger get_state set_state].
      tidy. rewrite Hid. tidy. rewrite Hok. tidy. flatten_trace.
      match goal with
      | |- _ = ChatContext.generateResponse env ?w1 =>
          rewrite <- (try_catch_settled (ChatContext.generateResponse env)
                        (fun _ => logger error_level
                                    "Error regenerating response:")
                        w1 (generateResponse_settles env w1))
      end.
      reflexivity.
    + intros e Hfail. subst persist kept. run. rewrite Hid. tidy.
      unfold ChatContext.messages_data. rewrite Hfail. tidy.
      flatten_trace. reflexivity.
  - reflexivity.
  - apply trimmed_without_user.
Qed.

Lemma handleRegenerateResponse_trims_trailing_non_user_witness :
  truthy (currentChatId chattingState) = Some "c1"
  /\ ChatContext.handleRegenerateResponse
       (scriptedEnv nothing_refused None Cancel) elementString chattingWorld
     = ChatContext.generateResponse (scriptedEnv nothing_refused None Cancel)
         {| trace :=
              [Await (apiUpdateItem Chats "c1"
                        {| data_messages := Some [user_says "hi"];
                           data_functions := None; data_transcript := None;
                           data_rest := "" |});
               AddNotification "chats updated successfully" success (Some 5000)
                 (Some {| label := "View";
                          onClick := {| card_element := "Chat";
                                        card_id := Some "c1";
                                        card_item := None |} |});
               Emit "updated:chats" (PItem (IOther (Some "c1") ""))];
            chat := with_messages [user_says "hi"] chattingState |}
  /\ ChatContext.handleRegenerateResponse
       (scriptedEnv everything_refused None Cancel) elementString chattingWorld
     = (Ok tt,
        {| trace :=
             [Await (apiUpdateItem Chats "c1"
                       {| data_messages := Some [user_says "hi"];
                          data_functions := None; data_transcript := None;
                          data_rest := "" |});
              AddNotification "Error updating chats" error None None;
              Log error_level "Error regenerating response:"];
           chat := chattingState |})
  /\ ChatContext.trimmed [assistant_says "a"; assistant_says "b"] = [].
Proof.
  split; [reflexivity |].
  destruct (handleRegenerateResponse_trims_trailing_non_user
              (scriptedEnv nothing_refused None Cancel) elementString
              chattingWorld) as [_ [Hpersisted _]].
  destruct (Hpersisted "c1" eq_refl) as [Hok _].
  split; [exact (Hok _ eq_refl) |].
  destruct (handleRegenerateResponse_trims_trailing_non_user
              (scriptedEnv everything_refused None Cancel) elementString
              chattingWorld) as [_ [Hrefused _]].
  destruct (Hrefused "c1" eq_refl) as [_ Hfail].
  split; [exact (Hfail _ eq_refl) |].
  destruct (handleRegenerateResponse_trims_trailing_non_user
              (scriptedEnv nothing_refused None Cancel) elementString
              {| trace := [];
                 chat := with_messages [assistant_says "a"; assistant_says "b"]
                           chattingState |}) as [_ [_ [_ Hnone]]].
  apply Hnone. intros m [<- | [<- | []]]; discriminate.
Defined.

(** ** requestFileTranscript *)

Lemma events_since_app (w : World) (new : list Event) (c : ChatState) :
  events_since w {| trace := trace w ++ new; chat := c |} = new.
Proof.
  unfold events_since. cbn [trace].
  rewrite skipn_app, skipn_all, Nat.sub_diag. reflexivity.
Qed.

Ltac count_events := flatten_trace; rewrite events_since_app; reflexivity.



(** ** The order of notifications and publications *)

Ltac every_answer :=
  repeat match goal with
         | |- context [match transcript ?f with _ => _ end] =>
             destruct (transcript f)
         | _ => ask_env
         end.

Lemma createItem_succeeds env table collectionName itemData w item :
  backend env (trace w) _ (apiCreateItem collectionName itemData) = Ok item ->
  ApiContext.createItem env table collectionName itemData w
  = (Ok item,
     {| trace := trace w ++
          [Await (apiCreateItem collectionName itemData);
           Log debug_level
             ("Created " ++ collectionName_text collectionName ++ ":")%string;
           AddNotification
             (collectionName_text collectionName ++ " created successfully")%string
             success (Some 5000)
             (Some {| label := "View";
                      onClick := {| card_element := table collectionName;
                                    card_id := item_id item;
                                    card_item := None |} |});
           Emit ("created:" ++ collectionName_text collectionName)%string
             (PItem item)];
        chat := chat w |}).
Proof.
  intros H. run. rewrite H. tidy. flatten_trace. reflexivity.
Qed.

Lemma updateItem_succeeds env table collectionName itemId itemData w item :
  backend env (trace w) _ (apiUpdateItem collectionName itemId itemData)
    = Ok item ->
  ApiContext.updateItem env table collectionName itemId itemData w
  = (Ok item,
     {| trace := trace w ++
          [Await (apiUpdateItem collectionName itemId itemData);
           AddNotification
             (collectionName_text collectionName ++ " updated successfully")%string
             success (Some 5000)
             (Some {| label := "View";
                      onClick := {| card_element := table collectionName;
                                    card_id := Some itemId;
                                    card_item := None |} |});
           Emit ("updated:" ++ collectionName_text collectionName)%string
             (PItem item)];
        chat := chat w |}).
Proof.
  intros H. run. rewrite H. tidy. flatten_trace. reflexivity.
Qed.

(** C1, as amended.  In every run of every facade operation a success
    notification comes after a remote call has settled and a publication
    comes after a success notification; in every operation but
    [requestFileTranscript] no success notification follows a publication.
    A successful [createItem] or [updateItem] performs, after its remote
    call, exactly one success notification and then exactly one publication,
    and they are in the trace when it returns the item. *)
Theorem facade_notifies_then_publishes
    (env : Env) (table : CollectionName -> string) (w : World) :
  (forall op,
      publish_after_notify (events_since w (snd (perform env table op w))) = true)
  /\ (forall op,
      is_requestFileTranscript op = false ->
      notify_then_publish (events_since w (snd (perform env table op w))) = true)
  /\ (forall collectionName itemData item,
      backend env (trace w) _ (apiCreateItem collectionName itemData) = Ok item ->
      exists call logged notification publication,
        ApiContext.createItem env table collectionName itemData w
        = (Ok item,
           {| trace := trace w ++ [call; logged; notification; publication];
              chat := chat w |})
        /\ is_await call = true
        /\ is_success_notification notification = true
        /\ is_emit publication = true
        /\ count is_success_notification
             [call; logged; notification; publication] = 1
        /\ count is_emit [call; logged; notification; publication] = 1)
  /\ (forall collectionName itemId itemData item,
      backend env (trace w) _ (apiUpdateItem collectionName itemId itemData)
        = Ok item ->
      exists call notification publication,
        ApiContext.updateItem env table collectionName itemId itemData w
        = (Ok item,
           {| trace := trace w ++ [call; notification; publication];
              chat := chat w |})
        /\ is_await call = true
        /\ is_success_notification notification = true
        /\ is_emit publication = true
        /\ count is_success_notification [call; notification; publication] = 1
        /\ count is_emit [call; notification; publication] = 1).
Proof.
  split; [| split; [| split]].
  - intros op. destruct op; run; every_answer; count_events.
  - intros op Hop. destruct op; try discriminate Hop;
      run; every_answer; count_events.
  - intros collectionName itemData item H.
    rewrite (createItem_succeeds _ _ _ _ _ _ H).
    do 4 eexists. split; [reflexivity |]. repeat split.
  - intros collectionName itemId itemData item H.
    rewrite (updateItem_succeeds _ _ _ _ _ _ _ H).
    do 3 eexists. split; [reflexivity |]. repeat split.
Qed.

Lemma facade_notifies_then_publishes_witness :
  publish_after_notify
    (events_since initialWorld
       (snd (perform (scriptedEnv nothing_refused None Confirm) elementString
               (call_sendMessage "c1" (user_says "hi")) initialWorld))) = true
  /\ notify_then_publish
       (events_since initialWorld
          (snd (perform (scriptedEnv nothing_refused None Confirm) elementString
                  (call_deleteItem Chats "c1") initialWorld))) = true
  /\ (exists call logged notification publication,
        ApiContext.createItem (scriptedEnv nothing_refused None Confirm)
          elementString Tasks no_data initialWorld
        = (Ok (IOther (Some "new") ""),
           {| trace := [] ++ [call; logged; notification; publication];
              chat := initialState |})
        /\ is_await call = true
        /\ is_success_notification notification = true
        /\ is_emit publication = true
        /\ count is_success_notification
             [call; logged; notification; publication] = 1
        /\ count is_emit [call; logged; notification; publication] = 1)
  /\ (exists call notification publication,
        ApiContext.updateItem (scriptedEnv nothing_refused None Confirm)
          elementString Tasks "t1" no_data initialWorld
        = (Ok (IOther (Some "t1") ""),
           {| trace := [] ++ [call; notification; publication];
              chat := initialState |})
        /\ is_await call = true
        /\ is_success_notification notification = true
        /\ is_emit publication = true
        /\ count is_success_notification [call; notification; publication] = 1
        /\ count is_emit [call; notification; publication] = 1).
Proof.
  destruct (facade_notifies_then_publishes
              (scriptedEnv nothing_refused None Confirm) elementString
              initialWorld) as [Hcaused [Hordered [Hcreate Hupdate]]].
  split; [apply Hcaused |].
  split; [apply Hordered; reflexivity |].
  split; [exact (Hcreate Tasks no_data _ eq_refl) |].
  exact (Hupdate Tasks "t1" no_data _ eq_refl).
Defined.

(** C1, as stated, fails for [requestFileTranscript].  On a file without a
    transcript, with every remote call succeeding, the nested [updateItem]
    notifies and publishes [updated:files], and only then does the operation
    issue its own success notification: a success notification after a
    publication. *)
Lemma requestFileTranscript_notifies_after_publishing :
  ApiContext.requestFileTranscript (scriptedEnv nothing_refused None Cancel)
    elementString "f1" None None initialWorld
  = (Ok (assistant_says "transcript"),
     {| trace :=
          [Log info_level "Requesting transcript for file: f1";
           Await (apiFetchItem (files_by_id "f1"));
           Await (apiRequestFileTranscript "f1" None None);
           Await (apiUpdateItem Files "f1" (ApiContext.transcript_data (assistant_says "transcript")));
           AddNotification "files updated successfully" success (Some 5000)
             (Some {| label := "View";
                      onClick := {| card_element := "File";
                                    card_id := Some "f1";
                                    card_item := None |} |});
           Emit "updated:files" (PItem (IOther (Some "f1") ""));
           AddNotification "Transcript generated successfully" success
             None None];
        chat := initialState |})
  /\ notify_then_publish
       (events_since initialWorld
          (snd (perform (scriptedEnv nothing_refused None Cancel) elementString
                  (call_requestFileTranscript "f1" None None) initialWorld)))
     = false
  /\ ~ (forall env table op w,
          notify_then_publish (events_since w (snd (perform env table op w)))
          = true).
Proof.
  split; [reflexivity |]. split; [reflexivity |].
  intros H.
  specialize (H (scriptedEnv nothing_refused None Cancel) elementString
                (call_requestFileTranscript "f1" None None) initialWorld).
  discriminate H.
Qed.

(** ** Failures *)

Ltac answers :=
  cbn [trace chat] in *;
  repeat match goal with
         | H : backend _ _ _ _ = _ |- _ => rewrite H
         end.

(** C3, as amended.  In a run of any operation but [deleteItem], the
    failures among the remote calls it awaited are none when it resolves
    and exactly the failure it rejects with when it rejects: it rejects as
    soon as a call fails, whichever call that is, and with that failure.
    An operation the provider wraps in its own [try]/[catch] shows as many
    error notifications as there were failures: one when it rejects, none
    when it resolves.  [fetchItem] and [retrieveFile], the bare
    [services/api] functions, show no notification at all.
    [requestFileTranscript], when it rejects, shows its own error
    notification, preceded by "Error updating files" exactly when the
    nested [updateItem] was reached, which is then the call that failed.
    While the backend fails every call, each of these operations awaits a
    call and rejects. *)
Theorem facade_failure_notifications
    (env : Env) (table : CollectionName -> string) (w : World) (op : Operation) :
  let outcome := perform env table op w in
  let new := events_since w (snd outcome) in
  (is_deleteItem op = false ->
   failures env (trace w) new
   = match fst outcome with Throw e => [e] | Ok _ => [] end)
  /\ (wrapped op = true ->
      count is_error_notification new = length (failures env (trace w) new))
  /\ (passed_through op = true -> count is_notification new = 0)
  /\ (is_requestFileTranscript op = true ->
      error_messages new
      = match fst outcome with
        | Ok _ => []
        | Throw _ =>
            (if existsb is_update_call new
             then ["Error updating files"]
             else [])
            ++ [own_transcript_error new]
        end)
  /\ (is_deleteItem op = false ->
      forall e,
        (forall history T (call : Remote T),
            backend env history T call = Throw e) ->
        fst outcome = Throw e /\ 1 <= count is_await new).
Proof.
  intros outcome new. subst new outcome.
  split; [| split; [| split; [| split]]].
  - destruct op; try discriminate; intros _; run; every_answer;
      flatten_trace; rewrite events_since_app; cbn [failures app fst];
      answers; reflexivity.
  - destruct op; try discriminate; intros _; run; every_answer;
      flatten_trace; rewrite events_since_app; cbn [failures app fst];
      answers; reflexivity.
  - destruct op; try discriminate; intros _; run; every_answer;
      count_events.
  - destruct op; try discriminate; intros _; run; every_answer;
      count_events.
  - intros Hop e Hdown.
    destruct op; try discriminate Hop; run;
      repeat (first [rewrite Hdown | ask_env]; tidy);
      flatten_trace; rewrite events_since_app; cbn; split;
      try reflexivity; lia.
Qed.

Lemma facade_failure_notifications_witness :
  fst (perform (scriptedEnv is_chat_fetch None Confirm) elementString
         (call_generateChatResponse "c1") initialWorld)
  = Throw (RemoteCallFailure "refused")
  /\ count is_error_notification
       (events_since initialWorld
          (snd (perform (scriptedEnv is_chat_fetch None Confirm) elementString
                  (call_generateChatResponse "c1") initialWorld))) = 1
  /\ count is_error_notification
       (events_since initialWorld
          (snd (perform (scriptedEnv nothing_refused None Confirm)
                  elementString (call_createItem Tasks no_data) initialWorld)))
     = 0
  /\ count is_notification
       (events_since initialWorld
          (snd (perform (scriptedEnv everything_refused None Confirm)
                  elementString (call_fetchItem chats_all) initialWorld)))
     = 0
  /\ fst (perform (scriptedEnv everything_refused None Confirm) elementString
            (call_fetchItem chats_all) initialWorld)
     = Throw (RemoteCallFailure "refused")
  /\ error_messages
       (events_since initialWorld
          (snd (perform (scriptedEnv is_update_call None Confirm)
                  elementString (call_requestFileTranscript "f1" None None)
                  initialWorld)))
     = ["Error updating files"; "Error requesting transcript"]
  /\ error_messages
       (events_since initialWorld
          (snd (perform (scriptedEnv is_update_call
                           (Some (assistant_says "old")) Confirm)
                  elementString (call_requestFileTranscript "f1" None None)
                  initialWorld)))
     = ["Error updating files"; "Error generating new transcript"]
  /\ error_messages
       (events_since initialWorld
          (snd (perform (scriptedEnv is_transcription_call None Confirm)
                  elementString (call_requestFileTranscript "f1" None None)
                  initialWorld)))
     = ["Error requesting transcript"].
Proof.
  destruct (facade_failure_notifications
              (scriptedEnv is_chat_fetch None Confirm) elementString
              initialWorld (call_generateChatResponse "c1"))
    as [Hrejects [Hshown _]].
  destruct (facade_failure_notifications
              (scriptedEnv nothing_refused None Confirm) elementString
              initialWorld (call_createItem Tasks no_data))
    as [_ [Hnone _]].
  destruct (facade_failure_notifications
              (scriptedEnv everything_refused None Confirm) elementString
              initialWorld (call_fetchItem chats_all))
    as [_ [_ [Hbare [_ Hdown]]]].
  destruct (facade_failure_notifications
              (scriptedEnv is_update_call None Confirm) elementString
              initialWorld (call_requestFileTranscript "f1" None None))
    as [_ [_ [_ [Htwice _]]]].
  destruct (facade_failure_notifications
              (scriptedEnv is_update_call (Some (assistant_says "old")) Confirm)
              elementString
              initialWorld (call_requestFileTranscript "f1" None None))
    as [_ [_ [_ [Hdialog _]]]].
  destruct (facade_failure_notifications
              (scriptedEnv is_transcription_call None Confirm) elementString
              initialWorld (call_requestFileTranscript "f1" None None))
    as [_ [_ [_ [Honce _]]]].
  split.
  { specialize (Hrejects eq_refl).
    destruct (fst (perform (scriptedEnv is_chat_fetch None Confirm)
                     elementString (call_generateChatResponse "c1")
                     initialWorld)) as [[] | e];
      [discriminate Hrejects | injection Hrejects as <-; reflexivity]. }
  split; [rewrite (Hshown eq_refl); reflexivity |].
  split; [rewrite (Hnone eq_refl); reflexivity |].
  split; [exact (Hbare eq_refl) |].
  split; [exact (proj1 (Hdown eq_refl (RemoteCallFailure "refused")
                          (fun _ _ _ => eq_refl))) |].
  split; [rewrite (Htwice eq_refl); reflexivity |].
  split; [rewrite (Hdialog eq_refl); reflexivity |].
  rewrite (Honce eq_refl); reflexivity.
Defined.

(** C3, as stated, fails for [requestFileTranscript].  On a file without a
    transcript, when the transcription succeeds and the update that should
    persist it fails, the nested [updateItem] shows its error notification
    and rethrows, and the operation's own [catch] shows a second one before
    it rethrows. *)
Lemma requestFileTranscript_notifies_failure_twice :
  ApiContext.requestFileTranscript (scriptedEnv is_update_call None Cancel)
    elementString "f1" None None initialWorld
  = (Throw (RemoteCallFailure "refused"),
     {| trace :=
          [Log info_level "Requesting transcript for file: f1";
           Await (apiFetchItem (files_by_id "f1"));
           Await (apiRequestFileTranscript "f1" None None);
           Await (apiUpdateItem Files "f1"
                    (ApiContext.transcript_data (assistant_says "transcript")));
           AddNotification "Error updating files" error None None;
           AddNotification "Error requesting transcript" error None None];
        chat := initialState |})
  /\ is_deleteItem (call_requestFileTranscript "f1" None None) = false
  /\ count is_error_notification
       (events_since initialWorld
          (snd (perform (scriptedEnv is_update_call None Cancel) elementString
                  (call_requestFileTranscript "f1" None None) initialWorld)))
     = 2
  /\ ~ (forall env table op w e,
          is_deleteItem op = false ->
          fst (perform env table op w) = Throw e ->
          count is_error_notification
            (events_since w (snd (perform env table op w))) = 1).
Proof.
  split; [reflexivity |]. split; [reflexivity |]. split; [reflexivity |].
  intros H.
  specialize (H (scriptedEnv is_update_call None Cancel) elementString
                (call_requestFileTranscript "f1" None None) initialWorld
                (RemoteCallFailure "refused") eq_refl eq_refl).
  discriminate H.
Qed.

(** ** addTaskToChat *)

Section Attaching.

Variable table : CollectionName -> string.







Lemma store_after_app (initial : Store) (h new : list Event) :
  store_after initial (h ++ new)
  = fold_left apply_call new (store_after initial h).
Proof. apply fold_left_app. Qed.

Lemma chat_has_id_patch (chatId : string) (d : ItemData) (c : AliceChat) :
  chat_has_id chatId (patch_chat d c) = chat_has_id chatId c.
Proof. reflexivity. Qed.

Lemma find_patched (chatId : string) (d : ItemData) (l : list AliceChat) :
  find (chat_has_id chatId)
    (map (fun c => if chat_has_id chatId c then patch_chat d c else c) l)
  = option_map (patch_chat d) (find (chat_has_id chatId) l).
Proof.
  induction l as [| c l IH]; [reflexivity |].
  cbn [map find]. destruct (chat_has_id chatId c) eqn:H.
  - rewrite chat_has_id_patch, H. reflexivity.
  - rewrite H. exact IH.
Qed.


End Attaching.









(** * Further properties of the facade *)

(** X1.  [deleteItem] opens exactly one dialog and shows exactly one
    notification whatever happens, and it publishes on the Event Bus exactly
    when it resolves [true]: then one event, [deleted:<collection>], carrying
    the identifier only. *)
Theorem deleteItem_publishes_iff_deleted
    (env : Env) (table : CollectionName -> string)
    (collectionName : CollectionName) (itemId : string) (w : World) :
  let outcome := ApiContext.deleteItem env table collectionName itemId w in
  let new := events_since w (snd outcome) in
  publications new
  = match fst outcome with
    | Ok true =>
        [(("deleted:" ++ collectionName_text collectionName)%string,
          PIdOnly itemId)]
    | _ => []
    end
  /\ count is_notification new = 1
  /\ count is_dialog new = 1
  /\ chat (snd outcome) = chat w.
Proof.
  intros outcome new. subst new outcome. run.
  every_answer; cbn [fst]; flatten_trace; rewrite events_since_app;
    repeat split.
Qed.

(** X2.  A successful [sendMessage] resolves with the chat the backend
    returned and publishes two events for the one action, in this order:
    [created:messages] with the message as it was passed in, then
    [updated:chats] with the returned chat.  A failed one publishes
    nothing. *)
Theorem sendMessage_publishes_message_then_chat
    (env : Env) (chatId : string) (message : MessageType) (w : World) :
  let outcome := ApiContext.sendMessage env chatId message w in
  let new := events_since w (snd outcome) in
  (forall result,
      backend env (trace w) _ (apiSendMessage chatId message) = Ok result ->
      fst outcome = Ok result
      /\ publications new
         = [("created:messages", PItem (IMessage message));
            ("updated:chats", PItem (IChat result))])
  /\ (forall e,
      backend env (trace w) _ (apiSendMessage chatId message) = Throw e ->
      fst outcome = Throw e /\ publications new = []).
Proof.
  intros outcome new. subst new outcome.
  split; intros x H; run; rewrite H; tidy; flatten_trace;
    rewrite events_since_app; split; reflexivity.
Qed.

Lemma sendMessage_publishes_message_then_chat_witness :
  publications
    (events_since initialWorld
       (snd (ApiContext.sendMessage (scriptedEnv nothing_refused None Cancel)
               "c1" (user_says "hi") initialWorld)))
  = [("created:messages", PItem (IMessage (user_says "hi")));
     ("updated:chats",
      PItem (IChat {| chat_id := Some "c1"; chat_messages := [user_says "hi"];
                      alice_agent := blank_agent; functions := None |}))]
  /\ publications
       (events_since initialWorld
          (snd (ApiContext.sendMessage
                  (scriptedEnv everything_refused None Cancel)
                  "c1" (user_says "hi") initialWorld))) = [].
Proof.
  destruct (sendMessage_publishes_message_then_chat
              (scriptedEnv nothing_refused None Cancel) "c1" (user_says "hi")
              initialWorld) as [Hsent _].
  destruct (sendMessage_publishes_message_then_chat
              (scriptedEnv everything_refused None Cancel) "c1" (user_says "hi")
              initialWorld) as [_ Hfailed].
  split.
  - exact (proj2 (Hsent _ eq_refl)).
  - exact (proj2 (Hfailed _ eq_refl)).
Defined.

(** X3.  [generateChatResponse] resolves with the backend's boolean.  When
    it is [false] nothing is fetched and nothing is published.  When it is
    [true] the chat is fetched again and published as [updated:chats]; if
    that second call fails the operation rejects, with an error notification
    following the success notification already shown, and nothing is
    published. *)
Theorem generateChatResponse_refetch
    (env : Env) (chatId : string) (w : World) :
  let generated :=
    trace w ++
    [Await (apiGenerateChatResponse chatId);
     AddNotification "Chat response generated successfully" success None None] in
  let refetch := apiFetchItem (chats_by_id chatId) in
  (backend env (trace w) _ (apiGenerateChatResponse chatId) = Ok false ->
   ApiContext.generateChatResponse env chatId w
   = (Ok false, {| trace := generated; chat := chat w |}))
  /\ (forall updatedChat,
      backend env (trace w) _ (apiGenerateChatResponse chatId) = Ok true ->
      backend env generated _ refetch = Ok updatedChat ->
      ApiContext.generateChatResponse env chatId w
      = (Ok true,
         {| trace := generated ++
              [Await refetch; Emit "updated:chats" (PItem (IChat updatedChat))];
            chat := chat w |}))
  /\ (forall e,
      backend env (trace w) _ (apiGenerateChatResponse chatId) = Ok true ->
      backend env generated _ refetch = Throw e ->
      ApiContext.generateChatResponse env chatId w
      = (Throw e,
         {| trace := generated ++
              [Await refetch;
               AddNotification "Error generating chat response" error
                 None None];
            chat := chat w |})).
Proof.
  intros generated refetch. subst generated refetch.
  split; [| split].
  - intros H. run. rewrite H. tidy. flatten_trace. reflexivity.
  - intros updatedChat H H'. run. rewrite H. tidy. flatten_trace.
    rewrite H'. tidy. flatten_trace. reflexivity.
  - intros e H H'. run. rewrite H. tidy. flatten_trace.
    rewrite H'. tidy. flatten_trace. reflexivity.
Qed.

Lemma generateChatResponse_refetch_witness :
  fst (ApiContext.generateChatResponse decliningEnv "c1" initialWorld)
  = Ok false
  /\ count is_chat_fetch
       (trace (snd (ApiContext.generateChatResponse decliningEnv "c1"
                      initialWorld))) = 0
  /\ publications
       (trace (snd (ApiContext.generateChatResponse
                      (scriptedEnv nothing_refused None Cancel) "c1"
                      initialWorld)))
     = [("updated:chats",
         PItem (IChat {| chat_id := Some "c1"; chat_messages := [];
                         alice_agent := blank_agent; functions := None |}))]
  /\ ApiContext.generateChatResponse (scriptedEnv is_chat_fetch None Cancel)
       "c1" initialWorld
     = (Throw (RemoteCallFailure "refused"),
        {| trace :=
             [Await (apiGenerateChatResponse "c1");
              AddNotification "Chat response generated successfully" success
                None None;
              Await (apiFetchItem (chats_by_id "c1"));
              AddNotification "Error generating chat response" error
                None None];
           chat := initialState |}).
Proof.
  destruct (generateChatResponse_refetch decliningEnv "c1" initialWorld)
    as [Hfalse _].
  destruct (generateChatResponse_refetch
              (scriptedEnv nothing_refused None Cancel) "c1" initialWorld)
    as [_ [Htrue _]].
  destruct (generateChatResponse_refetch
              (scriptedEnv is_chat_fetch None Cancel) "c1" initialWorld)
    as [_ [_ Hlost]].
  rewrite (Hfalse eq_refl), (Htrue _ eq_refl eq_refl).
  split; [reflexivity |]. split; [reflexivity |]. split; [reflexivity |].
  exact (Hlost _ eq_refl eq_refl).
Defined.

(** X4.  [updateMessageInChat] notifies and publishes [updated:messages]
    as soon as the message update has succeeded, before it fetches the chat
    again.  If that fetch fails, the operation rejects and shows an error
    notification although the message was updated, notified and published;
    [updated:chats] is not published. *)
Theorem updateMessageInChat_refetch_failure
    (env : Env) (chatId : string) (message result : MessageType) (e : Error)
    (w : World) :
  let updated :=
    trace w ++
    [Await (apiUpdateMessageInChat chatId message);
     AddNotification "Message updated successfully" success None None;
     Emit "updated:messages" (PItem (IMessage result))] in
  backend env (trace w) _ (apiUpdateMessageInChat chatId message) = Ok result ->
  backend env updated _ (apiFetchItem (chats_by_id chatId)) = Throw e ->
  ApiContext.updateMessageInChat env chatId message w
  = (Throw e,
     {| trace := updated ++
          [Await (apiFetchItem (chats_by_id chatId));
           AddNotification "Error updating message" error None None];
        chat := chat w |}).
Proof.
  intros updated H H'. subst updated. run. rewrite H. tidy. flatten_trace.
  cbn [collectionName_text String.append] in *.
  rewrite H'. tidy. flatten_trace. reflexivity.
Qed.

Lemma updateMessageInChat_refetch_failure_witness :
  ApiContext.updateMessageInChat (scriptedEnv is_chat_fetch None Cancel)
    "c1" (user_says "edited") initialWorld
  = (Throw (RemoteCallFailure "refused"),
     {| trace :=
          [Await (apiUpdateMessageInChat "c1" (user_says "edited"));
           AddNotification "Message updated successfully" success None None;
           Emit "updated:messages" (PItem (IMessage (user_says "edited")));
           Await (apiFetchItem (chats_by_id "c1"));
           AddNotification "Error updating message" error None None];
        chat := initialState |}).
Proof.
  exact (updateMessageInChat_refetch_failure
           (scriptedEnv is_chat_fetch None Cancel) "c1" (user_says "edited")
           (user_says "edited") (RemoteCallFailure "refused") initialWorld
           eq_refl eq_refl).
Defined.

(** X5.  How [requestFileTranscript] reports a failure depends on where it
    happens.  If the file cannot be fetched, or if the file has no
    transcript and the transcription fails, the one error notification is
    "Error requesting transcript"; in the first case no dialog is opened and
    the transcription endpoint is not called.  If the file has a transcript,
    the user asks for a new one and the transcription fails, the one error
    notification is "Error generating new transcript": the rejection comes
    from the promise around the dialog and does not pass through the outer
    [catch]. *)
Theorem requestFileTranscript_failure_messages
    (env : Env) (table : CollectionName -> string)
    (fileId : string) (agentId chatId : option string) (w : World) (e : Error) :
  let started :=
    trace w ++
    [Log info_level ("Requesting transcript for file: " ++ fileId)%string] in
  let fetch := apiFetchItem (files_by_id fileId) in
  let generate := apiRequestFileTranscript fileId agentId chatId in
  let outcome :=
    ApiContext.requestFileTranscript env table fileId agentId chatId w in
  let new := events_since w (snd outcome) in
  (backend env started _ fetch = Throw e ->
   fst outcome = Throw e
   /\ error_messages new = ["Error requesting transcript"]
   /\ count is_dialog new = 0
   /\ count is_transcription_call new = 0)
  /\ (forall fileData,
      backend env started _ fetch = Ok fileData ->
      transcript fileData = None ->
      backend env (started ++ [Await fetch]) _ generate = Throw e ->
      fst outcome = Throw e
      /\ error_messages new = ["Error requesting transcript"]
      /\ count is_update_call new = 0)
  /\ (forall fileData existing,
      backend env started _ fetch = Ok fileData ->
      transcript fileData = Some existing ->
      user env (started ++ [Await fetch]) ApiContext.transcript_dialog
        = Confirm ->
      backend env
        (started ++ [Await fetch; OpenDialog ApiContext.transcript_dialog])
        _ generate = Throw e ->
      fst outcome = Throw e
      /\ error_messages new = ["Error generating new transcript"]
      /\ count is_update_call new = 0).
Proof.
  intros started fetch generate outcome new.
  subst new outcome generate fetch started.
  split; [| split].
  - intros H. run. rewrite H. tidy. flatten_trace.
    rewrite events_since_app. repeat split.
  - intros fileData H Hnone H'. run. rewrite H. tidy. rewrite Hnone. tidy.
    rewrite H'. tidy. flatten_trace. rewrite events_since_app. repeat split.
  - intros fileData existing H Hsome Hconfirm H'.
    run. rewrite H. tidy. rewrite Hsome. tidy. rewrite Hconfirm. tidy.
    flatten_trace. repeat rewrite <- app_assoc in H'. cbn [app] in H'.
    rewrite H'. tidy. flatten_trace.
    rewrite events_since_app. repeat split.
Qed.

Lemma requestFileTranscript_failure_messages_witness :
  error_messages
    (events_since initialWorld
       (snd (ApiContext.requestFileTranscript
               (scriptedEnv everything_refused None Confirm) elementString
               "f1" None None initialWorld)))
  = ["Error requesting transcript"]
  /\ error_messages
       (events_since initialWorld
          (snd (ApiContext.requestFileTranscript
                  (scriptedEnv is_transcription_call None Confirm) elementString
                  "f1" None None initialWorld)))
     = ["Error requesting transcript"]
  /\ error_messages
       (events_since initialWorld
          (snd (ApiContext.requestFileTranscript
                  (scriptedEnv is_transcription_call
                     (Some (assistant_says "old")) Confirm)
                  elementString "f1" None None initialWorld)))
     = ["Error generating new transcript"].
Proof.
  destruct (requestFileTranscript_failure_messages
              (scriptedEnv everything_refused None Confirm) elementString
              "f1" None None initialWorld (RemoteCallFailure "refused"))
    as [Hfetch _].
  destruct (requestFileTranscript_failure_messages
              (scriptedEnv is_transcription_call None Confirm) elementString
              "f1" None None initialWorld (RemoteCallFailure "refused"))
    as [_ [Hfirst _]].
  destruct (requestFileTranscript_failure_messages
              (scriptedEnv is_transcription_call
                 (Some (assistant_says "old")) Confirm) elementString
              "f1" None None initialWorld (RemoteCallFailure "refused"))
    as [_ [_ Hagain]].
  split; [exact (proj1 (proj2 (Hfetch eq_refl))) |].
  split; [exact (proj1 (proj2 (Hfirst _ eq_refl eq_refl eq_refl))) |].
  exact (proj1 (proj2 (Hagain _ _ eq_refl eq_refl eq_refl eq_refl))).
Defined.

(** X6.  Whatever the backend and the user do, every key a facade operation
    publishes under is ["databasePurged"] or an event type among
    [created], [updated], [deleted] joined by a colon to the name of a
    collection. *)
Theorem facade_publishes_under_bus_keys
    (env : Env) (table : CollectionName -> string) (op : Operation) (w : World) :
  forallb (fun p => bus_key (fst p))
    (publications (events_since w (snd (perform env table op w)))) = true.
Proof.
  destruct op; try destruct collectionName; run; every_answer; count_events.
Qed.

(** X7.  While the backend fails every call, no facade operation publishes
    an event or shows a success notification; every operation rejects with
    the backend's failure, except [deleteItem], which resolves. *)
Theorem facade_silent_when_backend_down
    (env : Env) (table : CollectionName -> string) (op : Operation) (w : World)
    (e : Error) :
  (forall history T (call : Remote T), backend env history T call = Throw e) ->
  let outcome := perform env table op w in
  let new := events_since w (snd outcome) in
  publications new = []
  /\ count is_success_notification new = 0
  /\ fst outcome = (if is_deleteItem op then Ok tt else Throw e)
  /\ chat (snd outcome) = chat w.
Proof.
  intros Hdown outcome new. subst new outcome.
  destruct op; run; repeat (first [rewrite Hdown | ask_env]; tidy);
    flatten_trace; rewrite events_since_app; repeat split.
Qed.

Lemma facade_silent_when_backend_down_witness :
  publications
    (events_since initialWorld
       (snd (perform (scriptedEnv everything_refused None Confirm)
               elementString (call_deleteItem Chats "c1") initialWorld))) = []
  /\ fst (perform (scriptedEnv everything_refused None Confirm)
            elementString (call_deleteItem Chats "c1") initialWorld) = Ok tt
  /\ fst (perform (scriptedEnv everything_refused None Confirm)
            elementString (call_updateFile "bytes" None) initialWorld)
     = Throw (RemoteCallFailure "refused").
Proof.
  destruct (facade_silent_when_backend_down
              (scriptedEnv everything_refused None Confirm) elementString
              (call_deleteItem Chats "c1") initialWorld
              (RemoteCallFailure "refused") (fun _ _ _ => eq_refl))
    as [Hquiet [_ [Hresolved _]]].
  destruct (facade_silent_when_backend_down
              (scriptedEnv everything_refused None Confirm) elementString
              (call_updateFile "bytes" None) initialWorld
              (RemoteCallFailure "refused") (fun _ _ _ => eq_refl))
    as [_ [_ [Hrejected _]]].
  split; [exact Hquiet |]. split; [exact Hresolved | exact Hrejected].
Defined.

(** * Further properties of the chat session controller *)

(** X8.  The functions the chat provider exports never reject: whatever the
    backend does, each of them resolves, the two fetchers of available items
    with a list.  The failures of the facade stop here. *)
Theorem controller_never_rejects
    (env : Env) (table : CollectionName -> string) (w : World) :
  fst (ChatContext.fetchChats env w) = Ok tt
  /\ (forall chatId, fst (ChatContext.handleSelectChat env chatId w) = Ok tt)
  /\ (forall chatId message,
      fst (ChatContext.handleSendMessage env chatId message w) = Ok tt)
  /\ fst (ChatContext.generateResponse env w) = Ok tt
  /\ fst (ChatContext.handleRegenerateResponse env table w) = Ok tt
  /\ (forall taskId, fst (ChatContext.addTaskToChat env table taskId w) = Ok tt)
  /\ (exists l, fst (ChatContext.fetchAvailableTasks env w) = Ok l)
  /\ (exists l, fst (ChatContext.fetchAvailableTaskResults env w) = Ok l).
Proof.
  repeat match goal with |- _ /\ _ => split end; intros.
  - settle_flag.
  - settle_flag.
  - settle_flag.
  - apply generateResponse_settles.
  - settle_flag.
  - settle_flag.
  - run. ask_env; eexists; reflexivity.
  - run. ask_env; eexists; reflexivity.
Qed.

(** X9.  [handleSelectChat] loads the fetched chat into the current chat,
    the messages, the current identifier and the agent list (the chat's one
    agent) together.  If the fetch fails it leaves the whole state as it was
    and only logs, twice: [fetchItem] is the bare remote call, so the user
    gets no notification. *)
Theorem handleSelectChat_all_or_nothing
    (env : Env) (chatId : string) (w : World) :
  (forall chatData,
      backend env (trace w) _ (apiFetchItem (chats_by_id chatId)) = Ok chatData ->
      ChatContext.handleSelectChat env chatId w
      = (Ok tt,
         {| trace := trace w ++ [Await (apiFetchItem (chats_by_id chatId))];
            chat := with_selected chatId chatData (chat w) |}))
  /\ (forall e,
      backend env (trace w) _ (apiFetchItem (chats_by_id chatId)) = Throw e ->
      ChatContext.handleSelectChat env chatId w
      = (Ok tt,
         {| trace := trace w ++
              [Await (apiFetchItem (chats_by_id chatId));
               Log error_level "Error fetching chat by id:";
               Log error_level "Error fetching chat:"];
            chat := chat w |})
      /\ count is_notification
           (events_since w (snd (ChatContext.handleSelectChat env chatId w)))
         = 0).
Proof.
  split.
  - intros chatData H. run. rewrite H. tidy. reflexivity.
  - intros e H.
    assert (Hrun : ChatContext.handleSelectChat env chatId w
                   = (Ok tt,
                      {| trace := trace w ++
                           [Await (apiFetchItem (chats_by_id chatId));
                            Log error_level "Error fetching chat by id:";
                            Log error_level "Error fetching chat:"];
                         chat := chat w |})).
    { run. rewrite H. tidy. flatten_trace. reflexivity. }
    split; [exact Hrun |]. rewrite Hrun. cbn [snd].
    rewrite events_since_app. reflexivity.
Qed.

Lemma handleSelectChat_all_or_nothing_witness :
  chat (snd (ChatContext.handleSelectChat
               (scriptedEnv nothing_refused None Cancel) "c2" chattingWorld))
  = {| messages := []; pastChats := [sample_chat]; currentChatId := Some "c2";
       agents := [blank_agent]; isGenerating := false;
       currentChat := Some {| chat_id := Some "c2"; chat_messages := [];
                              alice_agent := blank_agent; functions := None |} |}
  /\ chat (snd (ChatContext.handleSelectChat
                  (scriptedEnv everything_refused None Cancel) "c2"
                  chattingWorld))
     = chattingState.
Proof.
  destruct (handleSelectChat_all_or_nothing
              (scriptedEnv nothing_refused None Cancel) "c2" chattingWorld)
    as [Hloaded _].
  destruct (handleSelectChat_all_or_nothing
              (scriptedEnv everything_refused None Cancel) "c2" chattingWorld)
    as [_ Hfailed].
  rewrite (Hloaded _ eq_refl).
  rewrite (proj1 (Hfailed _ eq_refl)).
  split; reflexivity.
Defined.

(** X10.  A failed fetch in [fetchChats], [fetchAvailableTasks] or
    [fetchAvailableTaskResults] is silent: the provider state is unchanged,
    no notification is shown, the failure is only logged.  A successful
    [fetchChats] replaces the past chats and nothing else. *)
Theorem controller_fetch_failures_are_silent
    (env : Env) (w : World) :
  (forall e,
      backend env (trace w) _ (apiFetchItem chats_all) = Throw e ->
      ChatContext.fetchChats env w
      = (Ok tt,
         {| trace := trace w ++
              [Await (apiFetchItem chats_all);
               Log error_level "Error fetching chats:"];
            chat := chat w |}))
  /\ (forall chats,
      backend env (trace w) _ (apiFetchItem chats_all) = Ok chats ->
      let s := chat (snd (ChatContext.fetchChats env w)) in
      pastChats s = chats
      /\ messages s = messages (chat w)
      /\ currentChatId s = currentChatId (chat w)
      /\ currentChat s = currentChat (chat w)
      /\ agents s = agents (chat w)
      /\ isGenerating s = isGenerating (chat w))
  /\ (forall e,
      backend env (trace w) _ (apiFetchItem tasks_all) = Throw e ->
      snd (ChatContext.fetchAvailableTasks env w)
      = {| trace := trace w ++
             [Await (apiFetchItem tasks_all);
              Log error_level "Error fetching available tasks:"];
           chat := chat w |})
  /\ (forall e,
      backend env (trace w) _ (apiFetchItem taskresults_all) = Throw e ->
      snd (ChatContext.fetchAvailableTaskResults env w)
      = {| trace := trace w ++
             [Await (apiFetchItem taskresults_all);
              Log error_level "Error fetching available task results:"];
           chat := chat w |}).
Proof.
  repeat match goal with |- _ /\ _ => split end;
    intros x H; run; rewrite H; tidy; flatten_trace; repeat split.
Qed.

Lemma controller_fetch_failures_are_silent_witness :
  ChatContext.fetchChats (scriptedEnv everything_refused None Cancel)
    chattingWorld
  = (Ok tt,
     {| trace := [Await (apiFetchItem chats_all);
                  Log error_level "Error fetching chats:"];
        chat := chattingState |})
  /\ pastChats
       (chat (snd (ChatContext.fetchChats
                     (scriptedEnv nothing_refused None Cancel) chattingWorld)))
     = []
  /\ chat (snd (ChatContext.fetchAvailableTasks
                  (scriptedEnv everything_refused None Cancel) chattingWorld))
     = chattingState
  /\ chat (snd (ChatContext.fetchAvailableTaskResults
                  (scriptedEnv everything_refused None Cancel) chattingWorld))
     = chattingState.
Proof.
  destruct (controller_fetch_failures_are_silent
              (scriptedEnv everything_refused None Cancel) chattingWorld)
    as [Hchats [_ [Htasks Hresults]]].
  destruct (controller_fetch_failures_are_silent
              (scriptedEnv nothing_refused None Cancel) chattingWorld)
    as [_ [Hloaded _]].
  split; [exact (Hchats _ eq_refl) |].
  split; [exact (proj1 (Hloaded _ eq_refl)) |].
  rewrite (Htasks _ eq_refl), (Hresults _ eq_refl). split; reflexivity.
Defined.

(** X11.  When the generation resolves truthy, the selected chat is fetched
    twice: once by the facade, whose answer is published as [updated:chats],
    and once more by the provider, whose answer becomes the current chat,
    the messages and the agent list.  The current identifier and the past
    chats are untouched and the flag ends [false]. *)
Theorem generateResponse_refreshes_from_second_fetch
    (env : Env) (chatId : string) (published loaded : AliceChat) (w : World) :
  let refetch := apiFetchItem (chats_by_id chatId) in
  let generated :=
    trace w ++
    [Await (apiGenerateChatResponse chatId);
     AddNotification "Chat response generated successfully" success None None] in
  let announced :=
    generated ++ [Await refetch; Emit "updated:chats" (PItem (IChat published))] in
  truthy (currentChatId (chat w)) = Some chatId ->
  backend env (trace w) _ (apiGenerateChatResponse chatId) = Ok true ->
  backend env generated _ refetch = Ok published ->
  backend env announced _ refetch = Ok loaded ->
  ChatContext.generateResponse env w
  = (Ok tt,
     {| trace := announced ++ [Await refetch];
        chat := with_generating false (with_chat loaded (chat w)) |})
  /\ count is_chat_fetch
       (events_since w (snd (ChatContext.generateResponse env w))) = 2.
Proof.
  intros refetch generated announced Hid Hgen Hfirst Hsecond.
  subst announced generated refetch.
  repeat rewrite <- app_assoc in Hsecond. cbn [app] in Hsecond.
  assert (Hrun : ChatContext.generateResponse env w
                 = (Ok tt,
                    {| trace := trace w ++
                         [Await (apiGenerateChatResponse chatId);
                          AddNotification "Chat response generated successfully"
                            success None None;
                          Await (apiFetchItem (chats_by_id chatId));
                          Emit "updated:chats" (PItem (IChat published));
                          Await (apiFetchItem (chats_by_id chatId))];
                       chat := with_generating false
                                 (with_chat loaded (chat w)) |})).
  { run. rewrite Hid. tidy. rewrite Hgen. tidy. flatten_trace.
    rewrite Hfirst. tidy. rewrite Hid. tidy. flatten_trace.
    cbn [collectionName_text String.append]. rewrite Hsecond. tidy.
    flatten_trace. reflexivity. }
  split.
  - rewrite Hrun. flatten_trace. reflexivity.
  - rewrite Hrun. cbn [snd]. rewrite events_since_app. reflexivity.
Qed.

Lemma generateResponse_refreshes_from_second_fetch_witness :
  chat (snd (ChatContext.generateResponse
               (scriptedEnv nothing_refused None Cancel) chattingWorld))
  = {| messages := []; pastChats := [sample_chat]; currentChatId := Some "c1";
       agents := [blank_agent]; isGenerating := false;
       currentChat := Some {| chat_id := Some "c1"; chat_messages := [];
                              alice_agent := blank_agent; functions := None |} |}
  /\ count is_chat_fetch
       (events_since chattingWorld
          (snd (ChatContext.generateResponse
                  (scriptedEnv nothing_refused None Cancel) chattingWorld)))
     = 2.
Proof.
  destruct (generateResponse_refreshes_from_second_fetch
              (scriptedEnv nothing_refused None Cancel) "c1" _ _ chattingWorld
              eq_refl eq_refl eq_refl eq_refl) as [Hrun Htwice].
  split; [rewrite Hrun; reflexivity | exact Htwice].
Defined.

(** X12.  With a chat selected, when the generation resolves falsy or
    rejects, or when the facade's re-fetch fails, the provider does not
    fetch the chat itself: apart from the flag, which ends [false], the
    state is as it was. *)
Theorem generateResponse_without_refresh
    (env : Env) (chatId : string) (w : World) :
  truthy (currentChatId (chat w)) = Some chatId ->
  fst (ApiContext.generateChatResponse env chatId
         {| trace := trace w; chat := with_generating true (chat w) |})
    <> Ok true ->
  chat (snd (ChatContext.generateResponse env w))
  = with_generating false (chat w).
Proof.
  intros Hid. run. rewrite Hid. tidy.
  repeat (ask_env; try (rewrite Hid; tidy)); cbn [fst]; intros Hnot;
    try reflexivity; exfalso; apply Hnot; reflexivity.
Qed.

Lemma generateResponse_without_refresh_witness :
  chat (snd (ChatContext.generateResponse decliningEnv chattingWorld))
  = chattingState
  /\ chat (snd (ChatContext.generateResponse
                  (scriptedEnv everything_refused None Cancel) chattingWorld))
     = chattingState.
Proof.
  split.
  - apply (generateResponse_without_refresh decliningEnv "c1" chattingWorld
             eq_refl).
    discriminate.
  - apply (generateResponse_without_refresh
             (scriptedEnv everything_refused None Cancel) "c1" chattingWorld
             eq_refl).
    discriminate.
Defined.

(** X13.  [handleSendMessage] sends to the chat whose identifier it is
    given, but the generation that follows is requested for the chat the
    provider has selected, whichever identifier was passed; with no chat
    selected the message is still sent and appended, and no generation is
    requested. *)
Theorem handleSendMessage_generates_for_selected_chat
    (env : Env) (chatId : string) (message : MessageType) (result : AliceChat)
    (w : World) :
  backend env (trace w) _ (apiSendMessage chatId message) = Ok result ->
  let outcome := ChatContext.handleSendMessage env chatId message w in
  (forall selected,
      truthy (currentChatId (chat w)) = Some selected ->
      generation_calls (events_since w (snd outcome)) = [selected])
  /\ (truthy (currentChatId (chat w)) = None ->
      outcome
      = (Ok tt,
         {| trace := trace w ++
              [Await (apiSendMessage chatId message);
               AddNotification "Message sent successfully" success None None;
               Emit "created:messages" (PItem (IMessage message));
               Emit "updated:chats" (PItem (IChat result))];
            chat := with_appended message (chat w) |})).
Proof.
  intros Hsent outcome. subst outcome. split.
  - intros selected Hid. run. rewrite Hsent. tidy. rewrite Hid. tidy.
    repeat (ask_env; try (rewrite Hid; tidy)); count_events.
  - intros Hnone. run. rewrite Hsent. tidy. rewrite Hnone. tidy.
    flatten_trace. reflexivity.
Qed.

Lemma handleSendMessage_generates_for_selected_chat_witness :
  generation_calls
    (events_since chattingWorld
       (snd (ChatContext.handleSendMessage
               (scriptedEnv nothing_refused None Cancel) "other"
               (user_says "hi") chattingWorld))) = ["c1"]
  /\ messages
       (chat (snd (ChatContext.handleSendMessage
                     (scriptedEnv nothing_refused None Cancel) "other"
                     (user_says "hi") initialWorld))) = [user_says "hi"].
Proof.
  destruct (handleSendMessage_generates_for_selected_chat
              (scriptedEnv nothing_refused None Cancel) "other"
              (user_says "hi") _ chattingWorld eq_refl) as [Hselected _].
  destruct (handleSendMessage_generates_for_selected_chat
              (scriptedEnv nothing_refused None Cancel) "other"
              (user_says "hi") _ initialWorld eq_refl) as [_ Hnone].
  split; [exact (Hselected "c1" eq_refl) |].
  rewrite (Hnone eq_refl). reflexivity.
Defined.

(** ** The trimming loop, further *)

Lemma pop_while_not_user_enough (l : list MessageType) :
  forall rounds, length l <= rounds ->
  ChatContext.pop_while_not_user rounds l = ChatContext.trimmed l.
Proof.
  unfold ChatContext.trimmed.
  induction l as [| m l IH] using rev_ind; intros rounds Hlen.
  - rewrite !pop_while_not_user_nil. reflexivity.
  - rewrite last_length in *.
    destruct rounds as [| rounds]; [lia |].
    rewrite !pop_while_not_user_snoc.
    destruct (negb (String.eqb (role m) "user")); [| reflexivity].
    rewrite (IH rounds) by lia. reflexivity.
Qed.

Lemma trimmed_snoc (l : list MessageType) (m : MessageType) :
  ChatContext.trimmed (l ++ [m])
  = if String.eqb (role m) "user" then l ++ [m] else ChatContext.trimmed l.
Proof.
  unfold ChatContext.trimmed at 1. rewrite last_length.
  rewrite pop_while_not_user_snoc.
  destruct (String.eqb (role m) "user"); cbn [negb]; [reflexivity |].
  apply pop_while_not_user_enough, le_n.
Qed.

(** X14.  Trimming again changes nothing, so regenerating twice persists
    the same sequence; a sequence that ends with a user message is kept
    whole; a non-user message appended to a sequence does not change what
    is kept; and what is kept is never longer than the sequence. *)
Theorem trimmed_is_idempotent (l : list MessageType) :
  ChatContext.trimmed (ChatContext.trimmed l) = ChatContext.trimmed l
  /\ (forall m, role m = "user" -> ChatContext.trimmed (l ++ [m]) = l ++ [m])
  /\ (forall m, role m <> "user" ->
        ChatContext.trimmed (l ++ [m]) = ChatContext.trimmed l)
  /\ length (ChatContext.trimmed l) <= length l.
Proof.
  split; [| split; [| split]].
  - induction l as [| m l IH] using rev_ind; [reflexivity |].
    rewrite trimmed_snoc.
    destruct (String.eqb (role m) "user") eqn:Hrole; [| exact IH].
    rewrite trimmed_snoc, Hrole. reflexivity.
  - intros m Hrole. rewrite trimmed_snoc.
    apply String.eqb_eq in Hrole. rewrite Hrole. reflexivity.
  - intros m Hrole. rewrite trimmed_snoc.
    apply String.eqb_neq in Hrole. rewrite Hrole. reflexivity.
  - induction l as [| m l IH] using rev_ind; [apply le_n |].
    rewrite trimmed_snoc, last_length.
    destruct (String.eqb (role m) "user"); [rewrite last_length |]; lia.
Qed.

Lemma trimmed_is_idempotent_witness :
  ChatContext.trimmed [user_says "hi"; assistant_says "a"; user_says "more"]
  = [user_says "hi"; assistant_says "a"; user_says "more"]
  /\ ChatContext.trimmed [user_says "hi"; assistant_says "a"; assistant_says "b"]
     = ChatContext.trimmed [user_says "hi"; assistant_says "a"].
Proof.
  destruct (trimmed_is_idempotent [user_says "hi"; assistant_says "a"])
    as [_ [Huser [Hother _]]].
  split.
  - exact (Huser (user_says "more") eq_refl).
  - apply (Hother (assistant_says "b")). discriminate.
Defined.

(** X15.  With no chat selected, [handleRegenerateResponse] and
    [addTaskToChat] do nothing at all: no remote call, no notification, no
    log entry, no change of state.  [addTaskToChat] also does nothing when
    an identifier is selected but no chat is loaded. *)
Theorem guarded_functions_do_nothing_without_chat
    (env : Env) (table : CollectionName -> string) (w : World) :
  (truthy (currentChatId (chat w)) = None ->
   ChatContext.handleRegenerateResponse env table w = (Ok tt, w)
   /\ forall taskId, ChatContext.addTaskToChat env table taskId w = (Ok tt, w))
  /\ (currentChat (chat w) = None ->
      forall taskId, ChatContext.addTaskToChat env table taskId w = (Ok tt, w)).
Proof.
  split.
  - intros Hnone. split; [| intros taskId]; run; rewrite Hnone;
      destruct w as [t s]; cbn [chat];
      try destruct (currentChat s); reflexivity.
  - intros Hnone taskId. run. rewrite Hnone.
    destruct w as [t s]. cbn [chat].
    destruct (truthy (currentChatId s)); reflexivity.
Qed.

Lemma guarded_functions_do_nothing_without_chat_witness :
  ChatContext.handleRegenerateResponse
    (scriptedEnv nothing_refused None Cancel) elementString initialWorld
  = (Ok tt, initialWorld)
  /\ ChatContext.addTaskToChat
       (scriptedEnv nothing_refused None Cancel) elementString "t1" initialWorld
     = (Ok tt, initialWorld).
Proof.
  destruct (guarded_functions_do_nothing_without_chat
              (scriptedEnv nothing_refused None Cancel) elementString
              initialWorld) as [Hid Hchat].
  split; [exact (proj1 (Hid eq_refl)) | exact (Hchat eq_refl "t1")].
Defined.

(** ** The provider's state, further *)

Ltac settle_coherent :=
  unfold coherent in *; run;
  repeat match goal with
         | |- context [match truthy ?i with _ => _ end] =>
             destruct (truthy i) eqn:?
         | |- context [match ?o with Some _ => _ | None => _ end] =>
             is_var o; destruct o
         | |- context [if ChatContext.isTaskInChat ?s ?i then _ else _] =>
             destruct (ChatContext.isTaskInChat s i)
         | H : currentChat ?s = _ |- context [currentChat ?s] => rewrite H
         | |- context [match currentChat (chat ?w) with _ => _ end] =>
             is_var w; destruct (currentChat (chat w)) eqn:?
         | _ => ask_env
         | _ => progress tidy
         end;
  repeat match goal with
         | H : match currentChat ?s with _ => _ end |- _ =>
             destruct (currentChat s) eqn:?
         | H : _ /\ _ |- _ => destruct H
         end;
  try (split; [reflexivity |]);
  try assumption; try discriminate; try (split; assumption);
  try (intros Habsurd;
       match goal with
       | H : truthy ?i = Some _ |- _ => rewrite Habsurd in H; discriminate H
       end).

Lemma coherent_preserved env table w :
  coherent (chat w) ->
  coherent (chat (snd (ChatContext.fetchChats env w)))
  /\ (forall chatId, coherent (chat (snd (ChatContext.handleSelectChat env chatId w))))
  /\ coherent (chat (snd (ChatContext.generateResponse env w)))
  /\ (forall chatId message,
        coherent (chat (snd (ChatContext.handleSendMessage env chatId message w))))
  /\ coherent (chat (snd (ChatContext.handleRegenerateResponse env table w)))
  /\ (forall taskId, coherent (chat (snd (ChatContext.addTaskToChat env table taskId w))))
  /\ coherent (chat (snd (ChatContext.fetchAvailableTasks env w)))
  /\ coherent (chat (snd (ChatContext.fetchAvailableTaskResults env w))).
Proof.
  intros Hc.
  repeat match goal with |- _ /\ _ => split end; intros.
  - settle_coherent.
  - settle_coherent.
  - settle_coherent.
  - settle_coherent.
  - settle_coherent.
  - settle_coherent.
  - settle_coherent.
  - settle_coherent.
Qed.

(** X18.  In every world the provider's own functions lead to from the
    initial state, the current chat, the current identifier and the agent
    list go together: with a chat loaded, the agent list is exactly that
    chat's one agent and an identifier is selected; with none loaded there
    is no identifier and no agent.  So an identifier is selected exactly
    when a chat is loaded, and there is never more than one agent. *)
Theorem reachable_state_is_coherent
    (env : Env) (table : CollectionName -> string) (w : World) :
  reachable env table w ->
  coherent (chat w)
  /\ (currentChatId (chat w) = None <-> currentChat (chat w) = None)
  /\ length (agents (chat w)) <= 1.
Proof.
  intros Hreach.
  assert (Hc : coherent (chat w)).
  { induction Hreach as [| w _ IH | w chatId _ IH | w chatId message _ IH
                         | w _ IH | w _ IH | w taskId _ IH | w _ IH | w _ IH];
      try (pose proof (coherent_preserved env table w IH)
             as [H1 [H2 [H3 [H4 [H5 [H6 [H7 H8]]]]]]]).
    - split; reflexivity.
    - exact H1.
    - apply H2.
    - apply H4.
    - exact H3.
    - exact H5.
    - apply H6.
    - exact H7.
    - exact H8. }
  split; [exact Hc |].
  unfold coherent in Hc.
  destruct (currentChat (chat w)) as [c |]; destruct Hc as [Hagents Hid];
    rewrite Hagents; cbn [length].
  - split; [| lia]. split; [intros H; contradiction | discriminate].
  - split; [| lia]. split; [reflexivity | intros _; exact Hid].
Qed.

Lemma reachable_state_is_coherent_witness :
  coherent
    (chat (snd (ChatContext.handleSendMessage
                  (scriptedEnv nothing_refused None Cancel) "c1"
                  (user_says "hi")
                  (snd (ChatContext.handleSelectChat
                          (scriptedEnv nothing_refused None Cancel) "c1"
                          initialWorld))))).
Proof.
  apply (reachable_state_is_coherent
           (scriptedEnv nothing_refused None Cancel) elementString).
  apply reach_handleSendMessage, reach_handleSelectChat, reach_initial.
Defined.

(** X16.  With a chat selected and loaded, [addTaskToChat] leaves the
    provider state as it was, shows nothing of its own and does not reload
    the chat when the task cannot be had or persisted: if the backend has no
    such task it logs "Task not found" and sends no update; if fetching the
    task fails it only logs; if the update fails, the facade's error
    notification is shown, the failure is logged and the chat is not fetched
    again. *)
Theorem addTaskToChat_failures_change_nothing
    (env : Env) (table : CollectionName -> string)
    (taskId chatId : string) (current : AliceChat) (w : World) :
  truthy (currentChatId (chat w)) = Some chatId ->
  currentChat (chat w) = Some current ->
  let fetch := apiFetchItem (tasks_by_id taskId) in
  (backend env (trace w) _ fetch = Ok None ->
   ChatContext.addTaskToChat env table taskId w
   = (Ok tt,
      {| trace := trace w ++ [Await fetch; Log error_level "Task not found"];
         chat := chat w |}))
  /\ (forall e,
      backend env (trace w) _ fetch = Throw e ->
      ChatContext.addTaskToChat env table taskId w
      = (Ok tt,
         {| trace := trace w ++
              [Await fetch; Log error_level "Error adding tasks to chat:"];
            chat := chat w |}))
  /\ (forall task e,
      backend env (trace w) _ fetch = Ok (Some task) ->
      ChatContext.isTaskInChat (chat w) taskId = false ->
      let update :=
        apiUpdateItem Chats chatId
          (ChatContext.functions_data
             (match functions current with Some fs => fs | None => [] end
              ++ [task])) in
      backend env (trace w ++ [Await fetch]) _ update = Throw e ->
      ChatContext.addTaskToChat env table taskId w
      = (Ok tt,
         {| trace := trace w ++
              [Await fetch; Await update;
               AddNotification "Error updating chats" error None None;
               Log error_level "Error adding tasks to chat:"];
            chat := chat w |})).
Proof.
  intros Hid Hcurrent fetch. subst fetch.
  split; [| split].
  - intros H. run. rewrite Hid, Hcurrent. tidy. rewrite H. tidy.
    flatten_trace. reflexivity.
  - intros e H. run. rewrite Hid, Hcurrent. tidy. rewrite H. tidy.
    flatten_trace. reflexivity.
  - intros task e H Hout update H'. subst update.
    run. rewrite Hid, Hcurrent. tidy. rewrite H. tidy. rewrite Hout. tidy.
    rewrite H'. tidy. flatten_trace. reflexivity.
Qed.

Lemma addTaskToChat_failures_change_nothing_witness :
  ChatContext.addTaskToChat (storeEnv taskless_store) elementString "t1"
    chattingWorld
  = (Ok tt,
     {| trace := [Await (apiFetchItem (tasks_by_id "t1"));
                  Log error_level "Task not found"];
        chat := chattingState |})
  /\ chat (snd (ChatContext.addTaskToChat
                  (scriptedEnv everything_refused None Cancel) elementString
                  "t1" chattingWorld)) = chattingState
  /\ chat (snd (ChatContext.addTaskToChat
                  (scriptedEnv is_update_call None Cancel) elementString
                  "t1" chattingWorld)) = chattingState
  /\ count is_chat_fetch
       (trace (snd (ChatContext.addTaskToChat
                      (scriptedEnv is_update_call None Cancel) elementString
                      "t1" chattingWorld))) = 0.
Proof.
  destruct (addTaskToChat_failures_change_nothing
              (storeEnv taskless_store) elementString "t1" "c1" sample_chat
              chattingWorld eq_refl eq_refl) as [Hmissing _].
  destruct (addTaskToChat_failures_change_nothing
              (scriptedEnv everything_refused None Cancel) elementString
              "t1" "c1" sample_chat chattingWorld eq_refl eq_refl)
    as [_ [Hfetch _]].
  destruct (addTaskToChat_failures_change_nothing
              (scriptedEnv is_update_call None Cancel) elementString
              "t1" "c1" sample_chat chattingWorld eq_refl eq_refl)
    as [_ [_ Hupdate]].
  split; [exact (Hmissing eq_refl) |].
  rewrite (Hfetch _ eq_refl).
  rewrite (Hupdate _ _ eq_refl eq_refl eq_refl).
  repeat split.
Defined.

(** X17.  The update [addTaskToChat] sends carries the functions of the
    chat as the provider has it loaded, with the fetched task appended last.
    On a backend that stores what it is sent, this replaces whatever
    functions the backend held for the chat: functions attached there since
    the chat was loaded are dropped.  After the reload the provider shows
    the stored chat: its messages, and the functions just sent. *)
Theorem addTaskToChat_overwrites_stored_functions
    (table : CollectionName -> string) (initial : Store)
    (taskId chatId : string) (w : World)
    (current stored : AliceChat) (task : AliceTask) :
  truthy (currentChatId (chat w)) = Some chatId ->
  currentChat (chat w) = Some current ->
  ChatContext.isTaskInChat (chat w) taskId = false ->
  find (ChatContext.has_id taskId) (stored_tasks (store_after initial (trace w)))
    = Some task ->
  find (chat_has_id chatId) (stored_chats (store_after initial (trace w)))
    = Some stored ->
  let sent :=
    match functions current with Some fs => fs | None => [] end ++ [task] in
  let kept := patch_chat (ChatContext.functions_data sent) stored in
  let w1 := snd (ChatContext.addTaskToChat (storeEnv initial) table taskId w) in
  w1 = {| trace := trace w ++
            [Await (apiFetchItem (tasks_by_id taskId));
             Await (apiUpdateItem Chats chatId (ChatContext.functions_data sent));
             AddNotification "chats updated successfully" success (Some 5000)
               (Some {| label := "View";
                        onClick := {| card_element := table Chats;
                                      card_id := Some chatId;
                                      card_item := None |} |});
             Emit "updated:chats" (PItem (IChat kept));
             Await (apiFetchItem (chats_by_id chatId))];
          chat := with_selected chatId kept (chat w) |}
  /\ functions kept = Some sent
  /\ chat_messages kept = chat_messages stored
  /\ find (chat_has_id chatId) (stored_chats (store_after initial (trace w1)))
     = Some kept.
Proof.
  intros Hid Hcurrent Hout Htask Hchat sent kept w1.
  assert (Hrun : w1
                 = {| trace := trace w ++
                        [Await (apiFetchItem (tasks_by_id taskId));
                         Await (apiUpdateItem Chats chatId
                                  (ChatContext.functions_data sent));
                         AddNotification "chats updated successfully" success
                           (Some 5000)
                           (Some {| label := "View";
                                    onClick := {| card_element := table Chats;
                                                  card_id := Some chatId;
                                                  card_item := None |} |});
                         Emit "updated:chats" (PItem (IChat kept));
                         Await (apiFetchItem (chats_by_id chatId))];
                      chat := with_selected chatId kept (chat w) |}).
  { subst w1 kept sent. run. rewrite Hid, Hcurrent. tidy.
    cbn [backend storeEnv]. unfold storeBackend at 1. rewrite Htask. tidy.
    rewrite Hout. tidy.
    unfold storeBackend at 1. rewrite store_after_app.
    cbn [fold_left apply_call]. rewrite Hchat. tidy.
    unfold storeBackend at 1. rewrite !store_after_app.
    cbn [fold_left apply_call stored_chats]. rewrite find_patched, Hchat.
    cbn [option_map]. tidy. flatten_trace. reflexivity. }
  split; [exact Hrun |].
  split; [reflexivity |].
  split; [reflexivity |].
  rewrite Hrun. cbn [trace]. rewrite store_after_app.
  cbn [fold_left apply_call stored_chats]. rewrite find_patched, Hchat.
  reflexivity.
Qed.

Lemma addTaskToChat_overwrites_stored_functions_witness :
  option_map functions
    (currentChat
       (chat (snd (ChatContext.addTaskToChat (storeEnv diverged_store)
                     elementString "t1" chattingWorld))))
  = Some (Some [sample_task])
  /\ messages
       (chat (snd (ChatContext.addTaskToChat (storeEnv diverged_store)
                     elementString "t1" chattingWorld)))
     = [user_says "hi"]
  /\ option_map functions
       (find (chat_has_id "c1")
          (stored_chats
             (store_after diverged_store
                (trace (snd (ChatContext.addTaskToChat (storeEnv diverged_store)
                               elementString "t1" chattingWorld))))))
     = Some (Some [sample_task]).
Proof.
  destruct (addTaskToChat_overwrites_stored_functions elementString
              diverged_store "t1" "c1" chattingWorld sample_chat _ sample_task
              eq_refl eq_refl eq_refl eq_refl eq_refl)
    as [Hrun [_ [_ Hstored]]].
  rewrite Hstored, Hrun. repeat split.
Defined.

(** * Further properties of the facade, continued *)

(** X19.  No facade operation retries or loops: a run awaits at least one
    and at most three remote calls, at most two unless it is
    [requestFileTranscript] and exactly one for the operations that neither
    fetch again nor ask the user; [deleteItem] awaits at most one.  Only
    [deleteItem] and [requestFileTranscript] ever open a dialog, at most one
    per run.  No operation changes the state of the chat provider. *)
Theorem facade_remote_call_budget
    (env : Env) (table : CollectionName -> string) (op : Operation) (w : World) :
  let new := events_since w (snd (perform env table op w)) in
  count is_await new <= remote_call_budget op
  /\ (is_deleteItem op = false -> 1 <= count is_await new)
  /\ (asks_user op = false -> remote_call_budget op = 1 ->
      count is_await new = 1)
  /\ count is_dialog new <= (if asks_user op then 1 else 0)
  /\ chat (snd (perform env table op w)) = chat w.
Proof.
  intros new. subst new.
  destruct op; run; every_answer; flatten_trace; rewrite events_since_app;
    cbn; repeat split; try lia; try discriminate.
Qed.

Lemma facade_remote_call_budget_witness :
  count is_await
    (events_since initialWorld
       (snd (perform (scriptedEnv nothing_refused None Confirm) elementString
               (call_executeTask "t1" "{}") initialWorld))) = 1
  /\ 1 <= count is_await
            (events_since initialWorld
               (snd (perform (scriptedEnv everything_refused None Confirm)
                       elementString (call_updateMessageInChat "c1"
                                        (user_says "hi")) initialWorld))).
Proof.
  destruct (facade_remote_call_budget
              (scriptedEnv nothing_refused None Confirm) elementString
              (call_executeTask "t1" "{}") initialWorld)
    as [_ [_ [Hone _]]].
  destruct (facade_remote_call_budget
              (scriptedEnv everything_refused None Confirm) elementString
              (call_updateMessageInChat "c1" (user_says "hi")) initialWorld)
    as [_ [Hsome _]].
  split; [exact (Hone eq_refl eq_refl) | exact (Hsome eq_refl)].
Defined.

(** * Further properties of the chat session controller, continued *)

(** X20.  When the send, the generation and both fetches that follow
    succeed, the message [handleSendMessage] appended locally does not
    survive as such: the local sequence ends up being the messages of the
    chat the provider fetched last, whether or not they contain it; the
    current chat and the agent list come from the same fetch and the flag is
    [false]. *)
Theorem handleSendMessage_refresh_replaces_local_messages
    (env : Env) (chatId selected : string) (message : MessageType)
    (result published loaded : AliceChat) (w : World) :
  let refetch := apiFetchItem (chats_by_id selected) in
  let sent :=
    trace w ++
    [Await (apiSendMessage chatId message);
     AddNotification "Message sent successfully" success None None;
     Emit "created:messages" (PItem (IMessage message));
     Emit "updated:chats" (PItem (IChat result))] in
  let generated :=
    sent ++
    [Await (apiGenerateChatResponse selected);
     AddNotification "Chat response generated successfully" success None None] in
  let announced :=
    generated ++ [Await refetch; Emit "updated:chats" (PItem (IChat published))] in
  truthy (currentChatId (chat w)) = Some selected ->
  backend env (trace w) _ (apiSendMessage chatId message) = Ok result ->
  backend env sent _ (apiGenerateChatResponse selected) = Ok true ->
  backend env generated _ refetch = Ok published ->
  backend env announced _ refetch = Ok loaded ->
  ChatContext.handleSendMessage env chatId message w
  = (Ok tt,
     {| trace := announced ++ [Await refetch];
        chat := with_generating false (with_chat loaded (chat w)) |}).
Proof.
  intros refetch sent generated announced Hid Hsent Hgen Hfirst Hsecond.
  subst announced generated sent refetch.
  repeat rewrite <- app_assoc in Hfirst.
  repeat rewrite <- app_assoc in Hsecond.
  cbn [app] in Hfirst, Hsecond.
  run. rewrite Hsent. tidy. rewrite Hid. tidy. flatten_trace.
  cbn [collectionName_text String.append]. rewrite Hgen. tidy. flatten_trace.
  rewrite Hfirst. tidy. rewrite Hid. tidy. flatten_trace.
  cbn [collectionName_text String.append]. rewrite Hsecond. tidy.
  flatten_trace. reflexivity.
Qed.

Lemma handleSendMessage_refresh_replaces_local_messages_witness :
  messages chattingState
  = [user_says "hi"; assistant_says "a"; assistant_says "b"]
  /\ messages
       (chat (snd (ChatContext.handleSendMessage
                     (scriptedEnv nothing_refused None Cancel) "c1"
                     (user_says "again") chattingWorld))) = [].
Proof.
  split; [reflexivity |].
  rewrite (handleSendMessage_refresh_replaces_local_messages
             (scriptedEnv nothing_refused None Cancel) "c1" "c1"
             (user_says "again") _ _ _ chattingWorld
             eq_refl eq_refl eq_refl eq_refl eq_refl).
  reflexivity.
Defined.
